(** * Employee analytics dashboard: fetch orchestration and derived state

    A shallow embedding of [src/pages/Index.tsx] (the dashboard view: the
    data-fetching effect, the client-side roster filter and the chart
    calculators) and of [services/api.ts] (the request builders), with the
    fragments of the JavaScript runtime they rely on.

    Layout: [JS] holds the runtime fragments (numbers, strings, dates),
    [Api] the request builders of api.ts, [Index] the dashboard component.
    The facts proved about them follow the definitions. *)

From Stdlib Require Import ZArith NArith QArith String Ascii List.
From Stdlib Require Import Decimal DecimalString DecimalN DecimalPos Lia Lqa.
From Stdlib Require Import Qround.
From stdpp Require Import gmap strings list fin_maps.
From stdpp Require Import sorting.

Local Open Scope string_scope.

(* ===================================================================== *)
(** ** The JavaScript runtime fragments used by the sources *)
(* ===================================================================== *)

Module JS.

(** Numbers.  A finite number is kept as the exact rational it denotes;
    [NaN] and the two infinities are separate values.  Rounding to binary64
    and the sign of zero are not represented: every result below is exact
    for decimal literals of at most 15 significant digits, which covers the
    travel buckets and the distances of the data model. *)
Inductive number : Type :=
| NaN
| Infinity (negative : bool)
| Fin (q : Q).

Definition of_N (n : N) : number := Fin (inject_Z (Z.of_N n)).

(** ToBoolean on a number: [NaN] and zero are falsy. *)
Definition number_truthy (x : number) : bool :=
  match x with
  | NaN => false
  | Infinity _ => true
  | Fin q => negb (Qeq_bool q 0)
  end.

(** [x <= y] on numbers; any comparison with [NaN] is false. *)
Definition number_le (x y : number) : bool :=
  match x, y with
  | NaN, _ | _, NaN => false
  | Infinity true, _ => true
  | _, Infinity false => true
  | Infinity false, _ => false
  | _, Infinity true => false
  | Fin a, Fin b => Qle_bool a b
  end.

(** [x >= y]. *)
Definition number_ge (x y : number) : bool := number_le y x.

(** Primitive values read from untyped ([any]) record fields. *)
Inductive primitive : Type :=
| VUndefined
| VNull
| VNumber (x : number)
| VString (s : string).

(** *** Characters and strings *)

Definition is_digit (c : ascii) : bool :=
  (48 <=? N_of_ascii c)%N && (N_of_ascii c <=? 57)%N.

Definition digit_value (c : ascii) : N := (N_of_ascii c - 48)%N.

(** ASCII white space (tab, LF, VT, FF, CR, space). *)
Definition is_space (c : ascii) : bool :=
  let n := N_of_ascii c in
  ((9 <=? n)%N && (n <=? 13)%N) || (n =? 32)%N.

Fixpoint trimStart (s : string) : string :=
  match s with
  | String c s' => if is_space c then trimStart s' else s
  | EmptyString => EmptyString
  end.

Fixpoint trimEnd (s : string) : string :=
  match s with
  | EmptyString => EmptyString
  | String c s' =>
      match trimEnd s' with
      | EmptyString => if is_space c then EmptyString else String c EmptyString
      | t => String c t
      end
  end.

Definition trim (s : string) : string := trimEnd (trimStart s).

Definition lower (c : ascii) : ascii :=
  let n := N_of_ascii c in
  if (65 <=? n)%N && (n <=? 90)%N then ascii_of_N (n + 32) else c.

(** [s.toLowerCase()] on ASCII letters. *)
Fixpoint toLowerCase (s : string) : string :=
  match s with
  | EmptyString => EmptyString
  | String c s' => String (lower c) (toLowerCase s')
  end.

(** [s.split(sep)] for a one-character separator: never empty, the empty
    string splits to one empty piece. *)
Fixpoint split (sep : ascii) (s : string) : list string :=
  match s with
  | EmptyString => [EmptyString]
  | String c s' =>
      if Ascii.eqb c sep then EmptyString :: split sep s'
      else match split sep s' with
           | piece :: pieces => String c piece :: pieces
           | [] => [String c EmptyString]
           end
  end.

(** [x === s] for a possibly undefined string [x] and a string [s]. *)
Definition strict_eq (x : option string) (s : string) : bool :=
  match x with
  | Some t => String.eqb t s
  | None => false
  end.

(** ToBoolean on a string: only the empty string is falsy. *)
Definition string_truthy (s : string) : bool :=
  match s with EmptyString => false | _ => true end.

(** *** Number to string and string to number *)

(** Decimal numeral of a natural number, no leading zeros. *)
Definition decimal (n : N) : string := NilZero.string_of_uint (N.to_uint n).

Definition digit_char (d : N) : ascii := ascii_of_N (48 + d).

(** Digits after the decimal point of [r / den] (with [r < den]). *)
Fixpoint fraction_digits (fuel : nat) (r den : N) : string :=
  match fuel with
  | O => EmptyString
  | S fuel' =>
      if (r =? 0)%N then EmptyString
      else String (digit_char ((10 * r) / den))
                  (fraction_digits fuel' ((10 * r) mod den) den)
  end.

(** Number::toString in positional notation (what the runtime prints for
    magnitudes in [1e-6, 1e21)). *)
Definition Number_toString (x : number) : string :=
  match x with
  | NaN => "NaN"
  | Infinity false => "Infinity"
  | Infinity true => "-Infinity"
  | Fin q =>
      let q := Qred q in
      let n := Z.abs_N (Qnum q) in
      let d := Npos (Qden q) in
      (if (Qnum q <? 0)%Z then "-" else "")
      +:+ decimal (n / d)
      +:+ (if (n mod d =? 0)%N then ""
           else "." +:+ fraction_digits (S (N.to_nat (N.log2 d))) (n mod d) d)
  end.

(** Longest prefix of decimal digits: accumulated value, number of digits
    read, and the rest of the string. *)
Fixpoint read_digits (s : string) (acc : N) (count : nat) : N * nat * string :=
  match s with
  | String c s' =>
      if is_digit c then read_digits s' (10 * acc + digit_value c) (S count)
      else (acc, count, s)
  | EmptyString => (acc, count, s)
  end.

(** Optional exponent part [e|E [+|-] digits]; [(0, s)] when there is none. *)
Definition read_exponent (s : string) : Z * string :=
  match s with
  | String c s1 =>
      if Ascii.eqb c "e" || Ascii.eqb c "E" then
        let '(neg, s2) :=
          match s1 with
          | String "-" t => (true, t)
          | String "+" t => (false, t)
          | _ => (false, s1)
          end in
        let '(e, k, rest) := read_digits s2 0 0 in
        match k with
        | O => (0%Z, s)
        | S _ => ((if neg : bool then - Z.of_N e else Z.of_N e)%Z, rest)
        end
      else (0%Z, s)
  | EmptyString => (0%Z, s)
  end.

(** [m * 10^e] as a reduced rational. *)
Definition scale10 (m : N) (e : Z) : Q :=
  if (0 <=? e)%Z then inject_Z (Z.of_N m * 10 ^ e)
  else Qred (Z.of_N m # Z.to_pos (10 ^ (- e))).

(** Longest prefix that is a StrUnsignedDecimalLiteral other than
    [Infinity]: digits, optional fraction, optional exponent. *)
Definition read_decimal (s : string) : option (Q * string) :=
  let '(ip, ni, s1) := read_digits s 0 0 in
  let '(m, nf, s2) :=
    match s1 with
    | String "." t => read_digits t ip 0
    | _ => (ip, O, s1)
    end in
  match ni, nf with
  | O, O => None
  | _, _ =>
      let '(e, rest) := read_exponent s2 in
      Some (scale10 m (e - Z.of_nat nf), rest)
  end.

Definition read_sign (s : string) : bool * string :=
  match s with
  | String "-" t => (true, t)
  | String "+" t => (false, t)
  | _ => (false, s)
  end.

Definition negate (neg : bool) (q : Q) : Q := if neg then Qopp q else q.

(** The global [parseFloat]: leading white space is skipped, the longest
    numeric prefix is read, anything after it is ignored. *)
Definition parseFloat (s : string) : number :=
  let '(neg, t) := read_sign (trimStart s) in
  if String.prefix "Infinity" t then Infinity neg
  else match read_decimal t with
       | Some (q, _) => Fin (negate neg q)
       | None => NaN
       end.

(** [parseFloat(x)] for a destructured array element, which is [undefined]
    when the array is too short: the argument is first converted to the
    string [undefined]. *)
Definition parseFloat_opt (x : option string) : number :=
  match x with
  | Some s => parseFloat s
  | None => parseFloat "undefined"
  end.

(** [Number(s)] on a string (StringToNumber): the whole trimmed string
    must be a decimal literal; the empty string is 0.  Hexadecimal, octal
    and binary literals are not covered (they read as [NaN] here). *)
Definition Number_of_string (s : string) : number :=
  match trim s with
  | EmptyString => Fin 0
  | t0 =>
      let '(neg, t) := read_sign t0 in
      if String.eqb t "Infinity" then Infinity neg
      else match read_decimal t with
           | Some (q, EmptyString) => Fin (negate neg q)
           | _ => NaN
           end
  end.

(** ToNumber on a primitive value. *)
Definition ToNumber (v : primitive) : number :=
  match v with
  | VUndefined => NaN
  | VNull => Fin 0
  | VNumber x => x
  | VString s => Number_of_string s
  end.

(** *** Dates *)

(** A [Date] object, as the calendar day it shows in the local time zone
    (the day that [getFullYear], [getMonth] and [getDate] give and that
    date-fns [format] prints), or the invalid date.  The time of day is not
    kept: the sources read a [Date] only through [format] with day patterns
    and through its truthiness. *)
Inductive Date : Type :=
| InvalidDate
| Day (year : Z) (month day : N).

(** What [new Date(s)] takes from the engine and the machine it runs on.
    [LocalTZA y m d] is the offset of local time from UTC, in milliseconds,
    at the instant of UTC midnight that starts the day [y-m-d].
    [Date_parse s] is the result for a string that is not a date-only form
    with fields in range; such strings (date-time and legacy forms, a day
    past the end of its month) are not interpreted here. *)
Record Host : Type := mkHost {
  LocalTZA : Z -> N -> N -> Z;
  Date_parse : string -> Date
}.

Definition msPerDay : Z := 86400000.

Definition leap_year (y : Z) : bool :=
  ((y mod 4 =? 0) && negb (y mod 100 =? 0) || (y mod 400 =? 0))%Z.

Definition days_in_month (y : Z) (m : N) : N :=
  match m with
  | 2 => if leap_year y then 29 else 28
  | 4 | 6 | 9 | 11 => 30
  | _ => 31
  end%N.

(** The calendar day before and the one after. *)
Definition previous_day (x : Z * N * N) : Z * N * N :=
  let '(y, m, d) := x in
  if (1 <? d)%N then (y, m, (d - 1)%N)
  else if (1 <? m)%N then (y, (m - 1)%N, days_in_month y (m - 1))
  else ((y - 1)%Z, 12%N, 31%N).

Definition next_day (x : Z * N * N) : Z * N * N :=
  let '(y, m, d) := x in
  if (d <? days_in_month y m)%N then (y, m, (d + 1)%N)
  else if (m <? 12)%N then (y, (m + 1)%N, 1%N)
  else ((y + 1)%Z, 1%N, 1%N).

Definition add_days (k : Z) (x : Z * N * N) : Z * N * N :=
  match k with
  | Z0 => x
  | Zpos n => Pos.iter next_day x n
  | Zneg n => Pos.iter previous_day x n
  end.

(** The day local time shows at UTC midnight of [y-m-d]: local time is
    [t + LocalTZA(t)], and its day is the day of [t] moved by the whole days
    in the offset, rounded down. *)
Definition local_day (h : Host) (y : Z) (m d : N) : Date :=
  let '(y', m', d') := add_days (LocalTZA h y m d / msPerDay) (y, m, d) in
  Day y' m' d'.

(** Exactly [n] decimal digits, then the rest. *)
Fixpoint read_fixed (n : nat) (s : string) (acc : N) : option (N * string) :=
  match n with
  | O => Some (acc, s)
  | S n' =>
      match s with
      | String c s' =>
          if is_digit c then read_fixed n' s' (10 * acc + digit_value c)
          else None
      | EmptyString => None
      end
  end.

(** [new Date(s)].  The date-only ISO form [YYYY-MM-DD] denotes UTC
    midnight of that day, whatever the local zone is; every other string is
    left to the host. *)
Definition new_Date (h : Host) (s : string) : Date :=
  match read_fixed 4 s 0 with
  | Some (y, String "-" s1) =>
      match read_fixed 2 s1 0 with
      | Some (m, String "-" s2) =>
          match read_fixed 2 s2 0 with
          | Some (d, EmptyString) =>
              if ((1 <=? m) && (m <=? 12) && (1 <=? d)
                  && (d <=? days_in_month (Z.of_N y) m))%N
              then local_day h (Z.of_N y) m d else Date_parse h s
          | _ => Date_parse h s
          end
      | _ => Date_parse h s
      end
  | _ => Date_parse h s
  end.

(** Left-pad a numeral with zeros to [width] characters. *)
Definition pad (width : nat) (s : string) : string :=
  String.concat "" (repeat "0" (width - String.length s)) +:+ s.

(** date-fns [format(d, 'yyyy-MM-dd')], which prints the local fields; the
    year of a date in or before 1 BC is printed as the year of that era
    ([1 - y]).  It throws a RangeError on an invalid date ([None]). *)
Definition format_yyyy_MM_dd (d : Date) : option string :=
  match d with
  | InvalidDate => None
  | Day y m d =>
      let year := if (0 <? y)%Z then y else (1 - y)%Z in
      Some (pad 4 (decimal (Z.to_N year)) +:+ "-" +:+ pad 2 (decimal m)
            +:+ "-" +:+ pad 2 (decimal d))
  end.

End JS.

(* ===================================================================== *)
(** ** services/api.ts: the request builders *)
(* ===================================================================== *)

Module Api.
Import JS.

(** A query-parameter value handed to the HTTP client. *)
Inductive param : Type :=
| PString (s : string)
| PNumber (x : number).

(** A GET request: path under the base URL and the [params] object. *)
Record request : Type := mkRequest {
  path : string;
  params : gmap string param
}.

(** The five data sources of the dashboard. *)
Inductive source : Type :=
| Employees
| Trends
| LateStats
| OnTimeStats
| Records.

#[global] Instance source_eq_dec : EqDecision source.
Proof. solve_decision. Defined.

(** [getEmployees(filters = {})]. *)
Definition getEmployees (filters : gmap string param) : request :=
  mkRequest "/employees" filters.

Definition getAttendanceTrends : request := mkRequest "/attendance/trends" ∅.

Definition getLateStatistics : request := mkRequest "/stats/late" ∅.

Definition getOntimeStatistics : request := mkRequest "/stats/ontime" ∅.

(** [getAllAttendanceRecords(dateFilter?, genderFilter?, travelDistanceMin?,
    travelDistanceMax?)].  The function declares four parameters; arguments
    a caller passes beyond them ([surplus]) are bound to nothing. *)
Definition getAllAttendanceRecords
    (dateFilter genderFilter : option string)
    (travelDistanceMin travelDistanceMax : option number)
    (surplus : list primitive) : request :=
  let params : gmap string param := ∅ in
  let params :=
    match dateFilter with
    | Some d => if string_truthy d then <["date_filter" := PString d]> params else params
    | None => params
    end in
  let params :=
    match genderFilter with
    | Some g =>
        if string_truthy g && negb (String.eqb (toLowerCase g) "all")
        then <["gender_filter" := PString g]> params else params
    | None => params
    end in
  let params :=
    match travelDistanceMin with
    | Some x => <["travelDistanceMin" := PNumber x]> params
    | None => params
    end in
  let params :=
    match travelDistanceMax with
    | Some x => <["travelDistanceMax" := PNumber x]> params
    | None => params
    end in
  mkRequest "/attendance/records" params.

(** What each function's own [catch] logs before it re-throws. *)
Definition error_message (s : source) : string :=
  match s with
  | Employees => "Error fetching employees:"
  | Trends => "Error fetching attendance trends:"
  | LateStats => "Error fetching late statistics:"
  | OnTimeStats => "Error fetching on-time statistics:"
  | Records => "Error fetching all attendance records:"
  end.

End Api.

(* ===================================================================== *)
(** ** pages/Index.tsx: the dashboard component *)
(* ===================================================================== *)

Module Index.
Import JS Api.

(** *** Data model *)

(** The filter object held by [useState] (and edited by DashboardFilters). *)
Record FilterState : Type := mkFilters {
  gender : string;
  department : string;
  travelDistance : string;
  attendanceStatus : string;
  date : option Date
}.

(** [{ ...prevFilters, date: d }]. *)
Definition with_date (d : option Date) (f : FilterState) : FilterState :=
  mkFilters (gender f) (department f) (travelDistance f) (attendanceStatus f) d.

(** The fields of an employee object that the component reads. *)
Record EmployeeRecord : Type := mkEmployee {
  emp_gender : string;
  emp_department : string;
  emp_travelKm : primitive
}.

(** An attendance record; [rec_date] is [None] when the field is missing
    or null. *)
Record AttendanceRecord : Type := mkRecord {
  rec_id : Z;
  rec_employeeName : string;
  rec_date : option string;
  rec_status : string
}.

Record TrendPoint : Type := mkTrend {
  month : string;
  presentPercent : number;
  latePercent : number;
  absentPercent : number
}.

(** Objects found in API payloads. *)
Inductive jsobject : Type :=
| OEmployee (e : EmployeeRecord)
| ORecord (r : AttendanceRecord)
| OTrend (t : TrendPoint)
| OStats (fields : list (string * number)).

(** An API payload ([response.data]), which is also what a cache entry
    holds: an entry is the JSON text of a payload, kept here as the payload
    that [JSON.parse] gives back. *)
Inductive json : Type :=
| JNull
| JObject (o : jsobject)
| JArray (items : list jsobject).

(** [x.length]: [None] when reading it throws (x is null), [Some None] when
    it is undefined. *)
Definition length_of (x : json) : option (option nat) :=
  match x with
  | JNull => None
  | JObject _ => Some None
  | JArray items => Some (Some (length items))
  end.

(** [o.date]. *)
Definition date_of (o : jsobject) : option string :=
  match o with
  | ORecord r => rec_date r
  | _ => None
  end.

(** [x[0].date], for an [x] whose length is positive. *)
Definition first_date (x : json) : option string :=
  match x with
  | JArray (o :: _) => date_of o
  | _ => None
  end.

(** *** Component state *)

(** The [useState] slots and the ref of the component, the two browser
    stores, the two observable traces (requests handed to the HTTP client
    and messages passed to [console.error]), and the host the page runs
    on. *)
Record state : Type := mkState {
  isLoading : bool;
  employeeData : json;
  attendanceTrendData : json;
  attendanceRecords : json;
  lateStatistics : json;
  onTimeStatistics : json;
  filters : FilterState;
  isInitialDateSynchronized : bool;
  localStorage : gmap string json;
  sessionStorage : gmap string json;
  requests : list request;
  console : list string;
  host : Host
}.

Definition setIsLoading (b : bool) (s : state) : state :=
  mkState b (employeeData s) (attendanceTrendData s) (attendanceRecords s)
    (lateStatistics s) (onTimeStatistics s) (filters s)
    (isInitialDateSynchronized s) (localStorage s) (sessionStorage s)
    (requests s) (console s) (host s).

Definition setEmployeeData (v : json) (s : state) : state :=
  mkState (isLoading s) v (attendanceTrendData s) (attendanceRecords s)
    (lateStatistics s) (onTimeStatistics s) (filters s)
    (isInitialDateSynchronized s) (localStorage s) (sessionStorage s)
    (requests s) (console s) (host s).

Definition setAttendanceTrendData (v : json) (s : state) : state :=
  mkState (isLoading s) (employeeData s) v (attendanceRecords s)
    (lateStatistics s) (onTimeStatistics s) (filters s)
    (isInitialDateSynchronized s) (localStorage s) (sessionStorage s)
    (requests s) (console s) (host s).

Definition setAttendanceRecords (v : json) (s : state) : state :=
  mkState (isLoading s) (employeeData s) (attendanceTrendData s) v
    (lateStatistics s) (onTimeStatistics s) (filters s)
    (isInitialDateSynchronized s) (localStorage s) (sessionStorage s)
    (requests s) (console s) (host s).

Definition setLateStatistics (v : json) (s : state) : state :=
  mkState (isLoading s) (employeeData s) (attendanceTrendData s)
    (attendanceRecords s) v (onTimeStatistics s) (filters s)
    (isInitialDateSynchronized s) (localStorage s) (sessionStorage s)
    (requests s) (console s) (host s).

Definition setOnTimeStatistics (v : json) (s : state) : state :=
  mkState (isLoading s) (employeeData s) (attendanceTrendData s)
    (attendanceRecords s) (lateStatistics s) v (filters s)
    (isInitialDateSynchronized s) (localStorage s) (sessionStorage s)
    (requests s) (console s) (host s).

(** [setFilters(update)] with a functional update. *)
Definition setFilters (update : FilterState -> FilterState) (s : state) : state :=
  mkState (isLoading s) (employeeData s) (attendanceTrendData s)
    (attendanceRecords s) (lateStatistics s) (onTimeStatistics s)
    (update (filters s))
    (isInitialDateSynchronized s) (localStorage s) (sessionStorage s)
    (requests s) (console s) (host s).

(** [isInitialDateSynchronized.current = b]. *)
Definition setSynchronized (b : bool) (s : state) : state :=
  mkState (isLoading s) (employeeData s) (attendanceTrendData s)
    (attendanceRecords s) (lateStatistics s) (onTimeStatistics s) (filters s)
    b (localStorage s) (sessionStorage s) (requests s) (console s) (host s).

(** [localStorage.setItem(key, JSON.stringify(v))]. *)
Definition localStorage_setItem (key : string) (v : json) (s : state) : state :=
  mkState (isLoading s) (employeeData s) (attendanceTrendData s)
    (attendanceRecords s) (lateStatistics s) (onTimeStatistics s) (filters s)
    (isInitialDateSynchronized s) (<[key := v]> (localStorage s))
    (sessionStorage s) (requests s) (console s) (host s).

(** [sessionStorage.setItem(key, JSON.stringify(v))]. *)
Definition sessionStorage_setItem (key : string) (v : json) (s : state) : state :=
  mkState (isLoading s) (employeeData s) (attendanceTrendData s)
    (attendanceRecords s) (lateStatistics s) (onTimeStatistics s) (filters s)
    (isInitialDateSynchronized s) (localStorage s)
    (<[key := v]> (sessionStorage s)) (requests s) (console s) (host s).

(** The HTTP client is handed one more request. *)
Definition issue (r : request) (s : state) : state :=
  mkState (isLoading s) (employeeData s) (attendanceTrendData s)
    (attendanceRecords s) (lateStatistics s) (onTimeStatistics s) (filters s)
    (isInitialDateSynchronized s) (localStorage s) (sessionStorage s)
    (requests s ++ [r]) (console s) (host s).

(** [console.error(msg, error)]. *)
Definition console_error (msg : string) (s : state) : state :=
  mkState (isLoading s) (employeeData s) (attendanceTrendData s)
    (attendanceRecords s) (lateStatistics s) (onTimeStatistics s) (filters s)
    (isInitialDateSynchronized s) (localStorage s) (sessionStorage s)
    (requests s) (console s ++ [msg]) (host s).

(** The state of a freshly mounted component over the given stores. *)
Definition initial_state (h : Host) (local session : gmap string json) : state :=
  mkState true (JArray []) (JArray []) (JArray []) JNull JNull
    (mkFilters "all" "all" "all" "all" None) false local session [] [] h.

(** *** The data-fetching effect *)

(** [filters.date ? format(filters.date, 'yyyy-MM-dd') : undefined];
    the outer [None] is the RangeError of [format]. *)
Definition dateParam (f : FilterState) : option (option string) :=
  match date f with
  | Some d =>
      match format_yyyy_MM_dd d with
      | Some s => Some (Some s)
      | None => None
      end
  | None => Some None
  end.

(** The pair [travelMin, travelMax] derived from the bucket. *)
Definition travelBounds (travelDistance : string) : option number * option number :=
  if negb (String.eqb travelDistance "all") then
    let pieces := split "-" travelDistance in
    let minStr := pieces !! 0%nat in
    let maxStr := pieces !! 1%nat in
    let travelMin := parseFloat_opt minStr in
    let travelMax :=
      if strict_eq maxStr "100" then None else Some (parseFloat_opt maxStr) in
    (Some travelMin, travelMax)
  else (None, None).

(** [`${x || fallback}`] for an optional string. *)
Definition string_or (x : option string) (fallback : string) : string :=
  match x with
  | Some s => if string_truthy s then s else fallback
  | None => fallback
  end.

(** [`${x || fallback}`] for an optional number. *)
Definition number_or (x : option number) (fallback : string) : string :=
  match x with
  | Some n => if number_truthy n then Number_toString n else fallback
  | None => fallback
  end.

(** The template literal that names the records cache entry. *)
Definition attendanceCacheKey
    (dateParam : option string)
    (genderParam departmentParam attendanceStatusParam : string)
    (travelMin travelMax : option number) : string :=
  "attendanceRecords_" +:+ string_or dateParam "latest"
  +:+ "_" +:+ genderParam
  +:+ "_" +:+ departmentParam
  +:+ "_" +:+ attendanceStatusParam
  +:+ "_" +:+ number_or travelMin "any"
  +:+ "_" +:+ number_or travelMax "any".

(** The condition of the auto-sync branch,
    [!synced.current && filters.date === undefined && x.length > 0 && x[0].date],
    evaluated left to right; [None] when reading [x.length] throws. *)
Definition shouldSync (captured : FilterState) (x : json) (s : state) : option bool :=
  if negb (isInitialDateSynchronized s) && negb (bool_decide (is_Some (date captured))) then
    match length_of x with
    | None => None
    | Some None => Some false
    | Some (Some n) =>
        Some ((0 <? n)%nat && string_truthy (default "" (first_date x)))
    end
  else Some false.

(** The condition of the reset branch,
    [synced.current && x.length === 0 && filters.date !== undefined]. *)
Definition shouldReset (captured : FilterState) (x : json) (s : state) : option bool :=
  if isInitialDateSynchronized s then
    match length_of x with
    | None => None
    | Some None => Some false
    | Some (Some n) => Some ((n =? 0)%nat && bool_decide (is_Some (date captured)))
    end
  else Some false.

(** The body of the auto-sync branch. *)
Definition syncDate (x : json) (s : state) : state :=
  let backendDate := new_Date (host s) (default "" (first_date x)) in
  setSynchronized true (setFilters (with_date (Some backendDate)) s).

(** What one run of the effect keeps in its closure for the handlers. *)
Record pass : Type := mkPass {
  captured : FilterState;
  cacheKey : string
}.

(** One fixed-key cache read of the hydration step:
    [const c = store.getItem(key); if (c) { set(JSON.parse(c)); hit = true }]. *)
Definition hydrate (entry : option json) (set : json -> state -> state)
    (sh : state * bool) : state * bool :=
  match entry with
  | Some v => (set v (fst sh), true)
  | None => sh
  end.

(** The synchronous part of [fetchData], up to the [await]: hydration from
    the caches, the cache key, the early clearing of the loading flag, and
    the five requests, which are all handed to the HTTP client before any
    response is looked at.  The second component is [None] when the run
    stops with an exception. *)
Definition fetchData_sync (f : FilterState) (s0 : state) : state * option pass :=
  let sh := (s0, false) in
  let sh := hydrate (localStorage s0 !! "employeeData") setEmployeeData sh in
  let sh := hydrate (sessionStorage s0 !! "attendanceTrendData") setAttendanceTrendData sh in
  let sh := hydrate (sessionStorage s0 !! "lateStatistics") setLateStatistics sh in
  let sh := hydrate (sessionStorage s0 !! "onTimeStatistics") setOnTimeStatistics sh in
  match dateParam f with
  | None => (fst sh, None)
  | Some dateParam =>
      let genderParam := gender f in
      let departmentParam := department f in
      let attendanceStatusParam := attendanceStatus f in
      let '(travelMin, travelMax) := travelBounds (travelDistance f) in
      let key := attendanceCacheKey dateParam genderParam departmentParam
                   attendanceStatusParam travelMin travelMax in
      let synced :=
        match sessionStorage s0 !! key with
        | Some cachedRecords =>
            let s := setAttendanceRecords cachedRecords (fst sh) in
            match shouldSync f cachedRecords s with
            | None => (s, None)
            | Some true => (syncDate cachedRecords s, Some true)
            | Some false => (s, Some true)
            end
        | None => (fst sh, Some (snd sh))
        end in
      match synced with
      | (s, None) => (s, None)
      | (s, Some hasCachedDataBeenSet) =>
          let s := if hasCachedDataBeenSet : bool then setIsLoading false s else s in
          let s := issue (getEmployees ∅) s in
          let s := issue getAttendanceTrends s in
          let s := issue getLateStatistics s in
          let s := issue getOntimeStatistics s in
          let s := issue (getAllAttendanceRecords dateParam (Some genderParam)
                            travelMin travelMax
                            [VString departmentParam; VString attendanceStatusParam]) s in
          (s, Some (mkPass f key))
      end
  end.

(** How a request settles. *)
Inductive outcome : Type :=
| Resolved (data : json)
| Rejected.

(** What the [.catch] of each promise in [fetchData] logs. *)
Definition failure_message (src : source) : string :=
  match src with
  | Employees => "Failed to fetch employees from API:"
  | Trends => "Failed to fetch attendance trends from API:"
  | LateStats => "Failed to fetch late statistics from API:"
  | OnTimeStats => "Failed to fetch on-time statistics from API:"
  | Records => "Failed to fetch all attendance records from API:"
  end.

(** The [.then] handler of the records request. *)
Definition onRecords (p : pass) (allRecords : json) (s : state) : state :=
  let s := setAttendanceRecords allRecords s in
  let s := sessionStorage_setItem (cacheKey p) allRecords s in
  match shouldSync (captured p) allRecords s with
  | None => console_error (failure_message Records) s
  | Some true => syncDate allRecords s
  | Some false =>
      match shouldReset (captured p) allRecords s with
      | None => console_error (failure_message Records) s
      | Some true => setSynchronized false s
      | Some false => s
      end
  end.

(** The [.then] handler of each request. *)
Definition onResolved (p : pass) (src : source) (data : json) (s : state) : state :=
  match src with
  | Employees => localStorage_setItem "employeeData" data (setEmployeeData data s)
  | Trends => sessionStorage_setItem "attendanceTrendData" data (setAttendanceTrendData data s)
  | LateStats => sessionStorage_setItem "lateStatistics" data (setLateStatistics data s)
  | OnTimeStats => sessionStorage_setItem "onTimeStatistics" data (setOnTimeStatistics data s)
  | Records => onRecords p data s
  end.

(** One request settles: on success its [.then] handler runs; on failure
    the function of api.ts logs and re-throws, and the [.catch] attached in
    [fetchData] logs. *)
Definition settle (p : pass) (src : source) (o : outcome) (s : state) : state :=
  match o with
  | Resolved data => onResolved p src data s
  | Rejected => console_error (failure_message src) (console_error (error_message src) s)
  end.

(** The handlers run one at a time, in the order the requests settle. *)
Definition settle_all (p : pass) (order : list source) (net : source -> outcome)
    (s : state) : state :=
  fold_left (fun s src => settle p src (net src) s) order s.

(** One run of the effect: the loading flag is raised, [fetchData] runs
    its synchronous part, the five requests settle in some order, and after
    [Promise.allSettled] the loading flag is cleared.  When the synchronous
    part throws, [fetchData] rejects and nothing more happens. *)
Definition runEffect (f : FilterState) (order : list source) (net : source -> outcome)
    (s : state) : state :=
  match fetchData_sync f (setIsLoading true s) with
  | (s1, Some p) => setIsLoading false (settle_all p order net s1)
  | (s1, None) => s1
  end.

(** *** The client-side roster filter *)

(** The effect that derives [filteredEmployeeData]. *)
Definition filterEmployees (f : FilterState) (employeeData : list EmployeeRecord)
    : list EmployeeRecord :=
  match employeeData with
  | [] => []
  | _ =>
      let result := employeeData in
      let result :=
        if negb (String.eqb (gender f) "all")
        then List.filter (fun emp => String.eqb (emp_gender emp) (gender f)) result
        else result in
      let result :=
        if negb (String.eqb (department f) "all")
        then List.filter (fun emp => String.eqb (emp_department emp) (department f)) result
        else result in
      let result :=
        if negb (String.eqb (travelDistance f) "all")
        then
          let bounds := map Number_of_string (split "-" (travelDistance f)) in
          let min := default NaN (bounds !! 0%nat) in
          let max := default NaN (bounds !! 1%nat) in
          List.filter (fun emp => number_ge (ToNumber (emp_travelKm emp)) min
                                  && number_le (ToNumber (emp_travelKm emp)) max) result
        else result in
      result
  end.

(** *** The chart calculators *)

Record NameValue : Type := mkNameValue {
  name : string;
  value : nat
}.

(** A counter object: keys in insertion order with their counts. *)
Definition counter_get (key : string) (o : list (string * nat)) : option nat :=
  snd <$> List.find (fun kv => String.eqb (fst kv) key) o.

(** [o[key] = n]: an existing key keeps its place, a new one goes last. *)
Fixpoint counter_set (key : string) (n : nat) (o : list (string * nat)) : list (string * nat) :=
  match o with
  | [] => [(key, n)]
  | (k, m) :: o' =>
      if String.eqb k key then (k, n) :: o' else (k, m) :: counter_set key n o'
  end.

(** [Object.keys(o).map(k => ({ name: k, value: o[k] }))]. *)
Definition counter_entries (o : list (string * nat)) : list NameValue :=
  map (fun k => mkNameValue k (default 0%nat (counter_get k o))) (map fst o).

(** Department names are taken to be ordinary names: a key that is an
    array index numeral would be listed first by [Object.keys]. *)
Definition getDepartmentData (filteredEmployeeData : list EmployeeRecord) : list NameValue :=
  let deptCount :=
    fold_left
      (fun deptCount emp =>
         counter_set (emp_department emp)
           (default 0%nat (counter_get (emp_department emp) deptCount) + 1)%nat
           deptCount)
      filteredEmployeeData [] in
  counter_entries deptCount.

Definition getGenderData (filteredEmployeeData : list EmployeeRecord) : list NameValue :=
  let genderCount :=
    fold_left
      (fun genderCount emp =>
         if String.eqb (emp_gender emp) "Male" || String.eqb (emp_gender emp) "Female"
         then counter_set (emp_gender emp)
                (S (default 0%nat (counter_get (emp_gender emp) genderCount)))
                genderCount
         else genderCount)
      filteredEmployeeData [("Male", 0%nat); ("Female", 0%nat)] in
  counter_entries genderCount.

Record TravelRange : Type := mkRange {
  range : string;
  count : nat
}.

(** [r.count++]. *)
Definition increment (r : TravelRange) : TravelRange :=
  mkRange (range r) (S (count r)).

(** The body of the [forEach] of [getTravelData]. *)
Definition countTravel (travelRanges : list TravelRange) (emp : EmployeeRecord)
    : list TravelRange :=
  let km := emp_travelKm emp in
  match km with
  | VUndefined | VNull => travelRanges
  | _ =>
      if number_le (ToNumber km) (of_N 5) then alter increment 0%nat travelRanges
      else if number_le (ToNumber km) (of_N 10) then alter increment 1%nat travelRanges
      else if number_le (ToNumber km) (of_N 15) then alter increment 2%nat travelRanges
      else if number_le (ToNumber km) (of_N 20) then alter increment 3%nat travelRanges
      else alter increment 4%nat travelRanges
  end.

Definition getTravelData (filteredEmployeeData : list EmployeeRecord) : list TravelRange :=
  let travelRanges :=
    [ mkRange "0-5" 0; mkRange "5-10" 0; mkRange "10-15" 0;
      mkRange "15-20" 0; mkRange "20+" 0 ] in
  fold_left countTravel filteredEmployeeData travelRanges.

End Index.

(* ===================================================================== *)
(** ** components/DashboardFilters.tsx: the values the filter UI offers *)
(* ===================================================================== *)

Module DashboardFilters.

Definition genderOptions : list string := ["all"; "Male"; "Female"].

Definition departments : list string :=
  ["all"; "Engineering"; "Human Resources"; "Finance"; "Marketing"; "Sales";
   "Operations"; "IT Support"; "R&D"; "Customer Support"; "Legal"].

Definition travelDistanceOptions : list string :=
  ["all"; "0-5"; "5-10"; "10-15"; "15-20"; "20-100"].

Definition attendanceStatusOptions : list string :=
  ["all"; "OnTime"; "Late"; "Half Day"; "Absent"; "Present"].

End DashboardFilters.

(* ===================================================================== *)
(** ** data/mockData.ts: the late-arrival test *)
(* ===================================================================== *)

Module MockData.

Record CheckInTime : Type := mkTime {
  hour : Z;
  minute : Z
}.

(** The standard check-in time, 9:00 AM. *)
Definition standardCheckInTime : CheckInTime := mkTime 9 0.

(** [isLate(checkInHour, checkInMinute)], on whole hours and minutes. *)
Definition isLate (checkInHour checkInMinute : Z) : bool :=
  if (hour standardCheckInTime <? checkInHour)%Z then true
  else if (checkInHour =? hour standardCheckInTime)%Z
          && (minute standardCheckInTime <? checkInMinute)%Z then true
  else false.

End MockData.

(* ===================================================================== *)
(** ** components/EmployeeAttendanceGrid.tsx: paging of the grid *)
(* ===================================================================== *)

Module EmployeeAttendanceGrid.

(** [arr.slice(start, end)] for integer arguments: a negative index counts
    from the end, both are clamped to the array. *)
Definition slice {A : Type} (start stop : Z) (arr : list A) : list A :=
  let len := Z.of_nat (length arr) in
  let k := if (start <? 0)%Z then Z.max (len + start) 0 else Z.min start len in
  let final := if (stop <? 0)%Z then Z.max (len + stop) 0 else Z.min stop len in
  take (Z.to_nat (final - k)) (drop (Z.to_nat k) arr).

Definition itemsPerPage : Z := 6.

(** [Math.ceil(data.length / itemsPerPage)]. *)
Definition totalPages {A : Type} (data : list A) : Z :=
  Qceiling (inject_Z (Z.of_nat (length data)) / inject_Z itemsPerPage).

(** The records of the page [currentPage]. *)
Definition currentItems {A : Type} (data : list A) (currentPage : Z) : list A :=
  let indexOfLastItem := (currentPage * itemsPerPage)%Z in
  let indexOfFirstItem := (indexOfLastItem - itemsPerPage)%Z in
  slice indexOfFirstItem indexOfLastItem data.

(** What the pagination bar holds: a link to a page (its key is the page
    number), or an ellipsis with its key. *)
Inductive PaginationItem : Type :=
| PaginationLink (page : Z) (isActive : bool)
| PaginationEllipsis (key : string).

(** The first and the last page number of the run of links around the
    current page, as [renderPaginationItems] computes them. *)
Definition pageRange (currentPage totalPages : Z) : Z * Z :=
  let maxPageNumbers := 5%Z in
  let half := Qfloor (inject_Z maxPageNumbers / 2) in
  let startPage := Z.max 1 (currentPage - half) in
  let endPage := Z.min totalPages (currentPage + half) in
  let startPage :=
    if (endPage - startPage + 1 <? maxPageNumbers)%Z
    then Z.max 1 (endPage - maxPageNumbers + 1) else startPage in
  let endPage :=
    if (endPage - startPage + 1 <? maxPageNumbers)%Z
    then Z.min totalPages (startPage + maxPageNumbers - 1) else endPage in
  (startPage, endPage).

Definition renderPaginationItems (currentPage totalPages : Z) : list PaginationItem :=
  let '(startPage, endPage) := pageRange currentPage totalPages in
  let items : list PaginationItem := [] in
  let items :=
    if (1 <? startPage)%Z then
      let items := (items ++ [PaginationLink 1 (currentPage =? 1)%Z])%list in
      if (2 <? startPage)%Z
      then (items ++ [PaginationEllipsis "ellipsis-start"])%list else items
    else items in
  let items :=
    (items ++ map (fun i => PaginationLink i (currentPage =? i)%Z)
                (seqZ startPage (endPage - startPage + 1)))%list in
  let items :=
    if (endPage <? totalPages)%Z then
      let items :=
        if (endPage <? totalPages - 1)%Z
        then (items ++ [PaginationEllipsis "ellipsis-end"])%list else items in
      (items ++ [PaginationLink totalPages (currentPage =? totalPages)%Z])%list
    else items in
  items.

(** The targets of the Previous and Next buttons. *)
Definition previousPage (currentPage : Z) : Z := Z.max 1 (currentPage - 1).

Definition nextPage (currentPage totalPages : Z) : Z :=
  Z.min totalPages (currentPage + 1).

(** The range of the second version of the component kept in the same
    file (the one with the search box). *)
Definition pageRange_search (currentPage totalPages : Z) : Z * Z :=
  let pageNumbersToShow := 5%Z in
  let half := Qfloor (inject_Z pageNumbersToShow / 2) in
  let startPage := Z.max 1 (currentPage - half) in
  let endPage := Z.min totalPages (currentPage + half) in
  if (endPage - startPage + 1 <? pageNumbersToShow)%Z then
    if (startPage =? 1)%Z then (startPage, Z.min totalPages pageNumbersToShow)
    else if (endPage =? totalPages)%Z
         then (Z.max 1 (totalPages - pageNumbersToShow + 1), endPage)
         else (startPage, endPage)
  else (startPage, endPage).

End EmployeeAttendanceGrid.

(* ===================================================================== *)
(** ** Vocabulary of the properties *)
(* ===================================================================== *)

Import JS Api Index.

(** A host whose local time is at a fixed offset from UTC (in milliseconds,
    positive east of Greenwich) and whose [Date] constructor gives the
    invalid date for every string it is left with. *)
Definition zone (offset : Z) : Host :=
  mkHost (fun _ _ _ => offset) (fun _ => InvalidDate).

Definition utc : Host := zone 0.

(** The date-only ISO string of a day of the years 0000 to 9999. *)
Definition iso_date (y m d : N) : string :=
  pad 4 (decimal y) +:+ "-" +:+ pad 2 (decimal m) +:+ "-" +:+ pad 2 (decimal d).

(** A string made of decimal digits only. *)
Fixpoint all_digits (s : string) : bool :=
  match s with
  | EmptyString => true
  | String c s' => is_digit c && all_digits s'
  end.

(** The bucket string the filter UI builds for the range [a, b]. *)
Definition bucket (a b : N) : string := decimal a +:+ "-" +:+ decimal b.

(** The live-state slot and the cache entry that belong to a source. *)
Definition slot (src : source) (s : state) : json :=
  match src with
  | Employees => employeeData s
  | Trends => attendanceTrendData s
  | LateStats => lateStatistics s
  | OnTimeStats => onTimeStatistics s
  | Records => attendanceRecords s
  end.

Definition cache_entry (key : string) (src : source) (s : state) : option json :=
  match src with
  | Employees => localStorage s !! "employeeData"
  | Trends => sessionStorage s !! "attendanceTrendData"
  | LateStats => sessionStorage s !! "lateStatistics"
  | OnTimeStats => sessionStorage s !! "onTimeStatistics"
  | Records => sessionStorage s !! key
  end.

(** The order in which [fetchData] pushes its promises. *)
Definition all_sources : list source := [Employees; Trends; LateStats; OnTimeStats; Records].

(** The cache key and the records request of a run, as functions of the
    captured filters and the formatted date. *)
Definition passKey (f : FilterState) (dp : option string) : string :=
  attendanceCacheKey dp (gender f) (department f) (attendanceStatus f)
    (fst (travelBounds (travelDistance f))) (snd (travelBounds (travelDistance f))).

Definition recordsRequest (f : FilterState) (dp : option string) : request :=
  getAllAttendanceRecords dp (Some (gender f))
    (fst (travelBounds (travelDistance f))) (snd (travelBounds (travelDistance f)))
    [VString (department f); VString (attendanceStatus f)].

(** Some cache entry of the run exists when it starts. *)
Definition cacheHit (key : string) (s : state) : bool :=
  existsb (fun src => bool_decide (is_Some (cache_entry key src s))) all_sources.


(** Keys of the records entries: they all start with the same prefix. *)
Definition records_key (k : string) : Prop :=
  String.prefix "attendanceRecords_" k = true.

(** Number of employees of a roster whose gender is exactly [g]. *)
Definition count_gender (g : string) (roster : list EmployeeRecord) : nat :=
  length (List.filter (fun emp => String.eqb (emp_gender emp) g) roster).

(** An array response with at least one element. *)
Definition nonempty (x : json) : Prop :=
  match x with
  | JArray (_ :: _) => True
  | _ => False
  end.

(** The predicate of the roster filter for the bounds [lo, hi]. *)
Definition keeps (f : FilterState) (lo hi : number) (emp : EmployeeRecord) : bool :=
  (String.eqb (gender f) "all" || String.eqb (emp_gender emp) (gender f))
  && (String.eqb (department f) "all" || String.eqb (emp_department emp) (department f))
  && (number_ge (ToNumber (emp_travelKm emp)) lo
      && number_le (ToNumber (emp_travelKm emp)) hi).

Ltac state_simpl :=
  cbn [slot cache_entry isLoading employeeData attendanceTrendData attendanceRecords
       lateStatistics onTimeStatistics filters isInitialDateSynchronized
       localStorage sessionStorage requests console host
       setIsLoading setEmployeeData setAttendanceTrendData setAttendanceRecords
       setLateStatistics setOnTimeStatistics setFilters setSynchronized
       localStorage_setItem sessionStorage_setItem issue console_error syncDate] in *.

(** The page numbers a pagination bar links to, in the order shown. *)
Definition linked_pages (items : list EmployeeAttendanceGrid.PaginationItem) : list Z :=
  omap (fun it => match it with
                  | EmployeeAttendanceGrid.PaginationLink page _ => Some page
                  | EmployeeAttendanceGrid.PaginationEllipsis _ => None
                  end) items.

(** Number of employees of a roster whose department is exactly [d]. *)
Definition count_department (d : string) (roster : list EmployeeRecord) : nat :=
  length (List.filter (fun emp => String.eqb (emp_department emp) d) roster).

(** The employee has a travel distance that is neither undefined nor null. *)
Definition has_distance (emp : EmployeeRecord) : bool :=
  match emp_travelKm emp with
  | VUndefined | VNull => false
  | _ => true
  end.

(** The gender and department tests of the roster filter. *)
Definition selected (f : FilterState) (emp : EmployeeRecord) : Prop :=
  (gender f = "all" \/ emp_gender emp = gender f)
  /\ (department f = "all" \/ emp_department emp = department f).

(** The counter object of [getDepartmentData] after the loop. *)
Definition deptCount (roster : list EmployeeRecord) : list (string * nat) :=
  fold_left
    (fun deptCount emp =>
       counter_set (emp_department emp)
         (default 0%nat (counter_get (emp_department emp) deptCount) + 1)%nat deptCount)
    roster [].

(** The string starts with an ASCII capital letter.  A department name of
    this shape is an ordinary key of the counter object: it is neither an
    array index nor the name of an inherited property. *)
Definition capitalised (s : string) : bool :=
  match s with
  | String c _ => (65 <=? N_of_ascii c)%N && (N_of_ascii c <=? 90)%N
  | EmptyString => false
  end.


(** The string holds no underscore, the separator of the cache key. *)
Fixpoint no_underscore (s : string) : bool :=
  match s with
  | EmptyString => true
  | String c s' => negb (Ascii.eqb c "_") && no_underscore s'
  end.

(** Every field of the selection is a value the filter UI offers. *)
Definition offered (f : FilterState) : Prop :=
  In (gender f) DashboardFilters.genderOptions
  /\ In (department f) DashboardFilters.departments
  /\ In (attendanceStatus f) DashboardFilters.attendanceStatusOptions
  /\ In (travelDistance f) DashboardFilters.travelDistanceOptions.

(* ===================================================================== *)
(** ** Numerals, parsing and splitting *)
(* ===================================================================== *)

Section NumeralFacts.

Lemma append_nil_l (s : string) : "" +:+ s = s.
Proof. reflexivity. Qed.

Lemma append_cons c (s t : string) : String c s +:+ t = String c (s +:+ t).
Proof. reflexivity. Qed.

Lemma numeral_not_nil n : N.to_uint n <> Nil.
Proof.
  destruct n as [|p]; [discriminate|]. apply DecimalPos.Unsigned.to_uint_nonnil.
Qed.

Lemma decimal_eq n : decimal n = NilEmpty.string_of_uint (N.to_uint n).
Proof.
  unfold decimal. pose proof (numeral_not_nil n).
  destruct (N.to_uint n); first [congruence | reflexivity].
Qed.

(** Reading the numeral of [d] in front of [rest] consumes exactly the
    numeral, provided [rest] does not go on with a digit. *)
Lemma read_digits_numeral d : forall rest acc k,
  (match rest with String c _ => is_digit c = false | EmptyString => True end) ->
  read_digits (NilEmpty.string_of_uint d +:+ rest) acc k
  = ((acc * 10 ^ DecimalPos.Unsigned.usize d
      + DecimalPos.Unsigned.of_lu (Decimal.rev d))%N,
     (k + Decimal.nb_digits d)%nat, rest).
Proof.
  assert (Hstep : forall d0 x, 
     DecimalPos.Unsigned.of_lu (revapp d0 x) = 
     (DecimalPos.Unsigned.of_lu (Decimal.rev d0) + DecimalPos.Unsigned.of_lu x * 10 ^ DecimalPos.Unsigned.usize d0)%N)
    by apply DecimalPos.Unsigned.of_lu_revapp.
  induction d; intros rest acc k Hrest.
  { cbn [NilEmpty.string_of_uint DecimalPos.Unsigned.usize
         Decimal.rev revapp DecimalPos.Unsigned.of_lu Decimal.nb_digits].
    rewrite append_nil_l.
    replace (acc * 10 ^ 0 + 0)%N with acc by (rewrite N.pow_0_r; lia).
    replace (k + 0)%nat with k by lia.
    destruct rest as [|c rest]; [reflexivity|].
    cbn [read_digits]. now rewrite Hrest. }
  all: cbn [NilEmpty.string_of_uint]; rewrite append_cons; cbn [read_digits];
    change (is_digit _) with true; cbn iota;
    rewrite IHd by exact Hrest; f_equal; f_equal;
    [ match goal with
      | |- context [Decimal.rev (?D ?d0)] =>
          change (Decimal.rev (D d0)) with (revapp d0 (D Nil))
      end;
      rewrite Hstep;
      cbn [DecimalPos.Unsigned.usize DecimalPos.Unsigned.of_lu];
      rewrite N.pow_succ_r';
      match goal with
      | |- context [digit_value ?c] =>
          let v := eval vm_compute in (digit_value c) in
          change (digit_value c) with v
      end; lia
    | cbn [Decimal.nb_digits]; lia ].
Qed.

Lemma read_digits_decimal n rest acc k :
  (match rest with String c _ => is_digit c = false | EmptyString => True end) ->
  exists k', read_digits (decimal n +:+ rest) acc k
  = ((acc * 10 ^ DecimalPos.Unsigned.usize (N.to_uint n) + n)%N, S k', rest).
Proof.
  intros Hrest. rewrite decimal_eq, read_digits_numeral by exact Hrest.
  rewrite <- DecimalPos.Unsigned.of_uint_alt.
  change (Pos.of_uint (N.to_uint n)) with (N.of_uint (N.to_uint n)).
  rewrite DecimalN.Unsigned.of_to.
  pose proof (numeral_not_nil n) as Hn.
  destruct (N.to_uint n); try congruence;
    cbn [Decimal.nb_digits]; rewrite Nat.add_succ_r; eexists; reflexivity.
Qed.



Lemma numeral_all_digits d : all_digits (NilEmpty.string_of_uint d) = true.
Proof. induction d; cbn [NilEmpty.string_of_uint all_digits]; auto. Qed.

Lemma decimal_all_digits n : all_digits (decimal n) = true.
Proof. rewrite decimal_eq. apply numeral_all_digits. Qed.

Lemma decimal_head n : exists c s, decimal n = String c s /\ is_digit c = true.
Proof.
  pose proof (decimal_all_digits n) as Hd. rewrite decimal_eq in *.
  pose proof (numeral_not_nil n) as Hn.
  destruct (N.to_uint n); try congruence;
    cbn [NilEmpty.string_of_uint] in *; eauto.
Qed.

Lemma digit_cases c :
  is_digit c = true ->
  is_space c = false /\ Ascii.eqb c "-" = false /\ Ascii.eqb c "+" = false
  /\ Ascii.eqb c "I" = false /\ Ascii.eqb c "a" = false /\ Ascii.eqb c "." = false.
Proof.
  destruct c as [[] [] [] [] [] [] [] []]; vm_compute; intros; try discriminate;
    repeat split.
Qed.

Lemma split_digits s t :
  all_digits s = true -> split "-" (s +:+ String "-" t) = s :: split "-" t.
Proof.
  induction s as [|c s IH]; intros Hs.
  - reflexivity.
  - cbn [all_digits] in Hs. apply andb_prop in Hs as [Hc Hs].
    rewrite append_cons. cbn [split].
    destruct (digit_cases c Hc) as (_ & -> & _). now rewrite IH.
Qed.

Lemma split_digits_only s : all_digits s = true -> split "-" s = [s].
Proof.
  induction s as [|c s IH]; intros Hs.
  - reflexivity.
  - cbn [all_digits] in Hs. apply andb_prop in Hs as [Hc Hs].
    cbn [split]. destruct (digit_cases c Hc) as (_ & -> & _). now rewrite IH.
Qed.

Lemma append_nil_r (s : string) : s +:+ "" = s.
Proof. induction s; [reflexivity|]. rewrite append_cons. now f_equal. Qed.

Lemma read_decimal_decimal n : read_decimal (decimal n) = Some (inject_Z (Z.of_N n), "").
Proof.
  unfold read_decimal.
  destruct (read_digits_decimal n "" 0 0 I) as [k Hk].
  rewrite append_nil_r in Hk. rewrite Hk.
  cbn. unfold scale10. cbn. now rewrite Z.mul_1_r, N.add_0_l.
Qed.

Lemma parseFloat_digit_lead c s :
  is_digit c = true ->
  parseFloat (String c s)
  = match read_decimal (String c s) with Some (q, _) => Fin q | None => NaN end.
Proof.
  destruct c as [[] [] [] [] [] [] [] []]; vm_compute is_digit; intros; try discriminate; reflexivity.
Qed.

Lemma parseFloat_decimal n : parseFloat (decimal n) = of_N n.
Proof.
  destruct (decimal_head n) as (c & s & Hs & Hc).
  pose proof (read_decimal_decimal n) as Hr. rewrite Hs in *.
  rewrite parseFloat_digit_lead by exact Hc. now rewrite Hr.
Qed.

Lemma decimal_inj a b : decimal a = decimal b -> a = b.
Proof.
  intros H. pose proof (parseFloat_decimal a) as Ha. rewrite H, parseFloat_decimal in Ha.
  unfold of_N in Ha. injection Ha. lia.
Qed.
End NumeralFacts.


(* ===================================================================== *)
(** ** The synchronous part of a run *)
(* ===================================================================== *)

Lemma fetchData_sync_inv f s s1 p :
  fetchData_sync f s = (s1, Some p) ->
  exists dp,
    dateParam f = Some dp
    /\ p = mkPass f (passKey f dp)
    /\ requests s1 = (requests s ++ [getEmployees ∅; getAttendanceTrends; getLateStatistics;
                                     getOntimeStatistics; recordsRequest f dp])%list
    /\ localStorage s1 = localStorage s
    /\ sessionStorage s1 = sessionStorage s
    /\ console s1 = console s
    /\ isLoading s1 = (if cacheHit (passKey f dp) s then false else isLoading s)
    /\ (forall src, src <> Records -> slot src s1 = default (slot src s) (cache_entry (passKey f dp) src s))
    /\ attendanceRecords s1 = default (attendanceRecords s) (sessionStorage s !! passKey f dp).
Proof.
  unfold fetchData_sync, passKey, recordsRequest, cacheHit.
  destruct (dateParam f) as [dp|]; [|discriminate].
  destruct (travelBounds (travelDistance f)) as [travelMin travelMax].
  cbn [fst snd]. cbv zeta.
  cbn [existsb all_sources cache_entry]. unfold hydrate.
  set (key := attendanceCacheKey dp _ _ _ _ _).
  destruct (localStorage s !! "employeeData") as [e|] eqn:He;
  destruct (sessionStorage s !! "attendanceTrendData") as [t|] eqn:Ht;
  destruct (sessionStorage s !! "lateStatistics") as [l|] eqn:Hl;
  destruct (sessionStorage s !! "onTimeStatistics") as [o|] eqn:Ho;
  destruct (sessionStorage s !! key) as [r|] eqn:Hr; cbn [fst snd];
  try destruct (shouldSync f r _) as [[|]|]; intros H; try discriminate H;
  injection H as <- <-; exists dp;
  (split; [reflexivity|]); (split; [reflexivity|]);
  (split; [cbn [requests issue]; rewrite <- !app_assoc; reflexivity|]);
  (split; [reflexivity|]); (split; [reflexivity|]); (split; [reflexivity|]);
  (split; [unfold key in *; rewrite ?Hr; reflexivity|]);
  (split; [intros [] Hne; cbn [slot cache_entry]; rewrite ?He, ?Ht, ?Hl, ?Ho;
           try reflexivity; contradiction|unfold key in *; rewrite ?Hr; reflexivity]).
Qed.



Lemma prefix_append (s t : string) : String.prefix s (s +:+ t) = true.
Proof.
  induction s as [|c s IH]; [now destruct t|].
  change (String c s +:+ t) with (String c (s +:+ t)).
  cbn [String.prefix]. destruct (ascii_dec c c); [exact IH|contradiction].
Qed.

Lemma passKey_records_key f dp : records_key (passKey f dp).
Proof. unfold passKey, attendanceCacheKey. apply prefix_append. Qed.

Lemma records_key_fixed k :
  records_key k ->
  k <> "attendanceTrendData" /\ k <> "lateStatistics" /\ k <> "onTimeStatistics".
Proof. unfold records_key. repeat split; intros ->; discriminate. Qed.

Section Settle.
Variable p : pass.
Hypothesis Hkey : records_key (cacheKey p).

(** What the records handler leaves alone. *)
Lemma onRecords_frame x s :
  let s' := onRecords p x s in
  attendanceRecords s' = x
  /\ sessionStorage s' = <[cacheKey p := x]> (sessionStorage s)
  /\ localStorage s' = localStorage s
  /\ employeeData s' = employeeData s
  /\ attendanceTrendData s' = attendanceTrendData s
  /\ lateStatistics s' = lateStatistics s
  /\ onTimeStatistics s' = onTimeStatistics s
  /\ isLoading s' = isLoading s
  /\ requests s' = requests s.
Proof.
  unfold onRecords.
  destruct (shouldSync _ _ _) as [[|]|]; [| destruct (shouldReset _ _ _) as [[|]|] |];
    state_simpl; repeat split.
Qed.

Lemma settle_frame src src' o s :
  src <> src' \/ o = Rejected ->
  slot src' (settle p src o s) = slot src' s
  /\ cache_entry (cacheKey p) src' (settle p src o s) = cache_entry (cacheKey p) src' s.
Proof.
  destruct (records_key_fixed _ Hkey) as (Ht & Hl & Ho).
  intros H. destruct o as [data|]; [|split; destruct src'; reflexivity].
  destruct H as [H|]; [|discriminate].
  pose proof (onRecords_frame data s) as Hf. cbv zeta in Hf.
  destruct Hf as (Hf1 & Hf2 & Hf3 & Hf4 & Hf5 & Hf6 & Hf7 & _).
  destruct src, src'; try contradiction; cbn [settle onResolved slot cache_entry];
    rewrite ?Hf2, ?Hf3, ?Hf4, ?Hf5, ?Hf6, ?Hf7; state_simpl;
    rewrite ?lookup_insert_ne by (congruence || discriminate); split; reflexivity.
Qed.

Lemma settle_resolved src data s :
  slot src (settle p src (Resolved data) s) = data
  /\ cache_entry (cacheKey p) src (settle p src (Resolved data) s) = Some data.
Proof.
  pose proof (onRecords_frame data s) as Hf. cbv zeta in Hf.
  destruct Hf as (Hf1 & Hf2 & _).
  destruct src; cbn [settle onResolved slot cache_entry]; rewrite ?Hf1, ?Hf2;
    state_simpl; rewrite lookup_insert_eq; split; reflexivity.
Qed.

Lemma settle_console src o s msg :
  msg ∈ console s -> msg ∈ console (settle p src o s).
Proof.
  intros Hm. destruct o as [data|]; [|cbn [settle]; state_simpl; rewrite !elem_of_app; auto].
  destruct src; cbn [settle onResolved]; state_simpl; try assumption.
  unfold onRecords.
  destruct (shouldSync _ _ _) as [[|]|]; [| destruct (shouldReset _ _ _) as [[|]|] |];
    state_simpl; rewrite ?elem_of_app; auto.
Qed.

Lemma settle_rejected_logged src s :
  error_message src ∈ console (settle p src Rejected s)
  /\ failure_message src ∈ console (settle p src Rejected s).
Proof.
  cbn [settle]; state_simpl. rewrite !elem_of_app, !list_elem_of_singleton. auto.
Qed.

(** Only a resolved records request touches the filter state and the ref. *)
Lemma settle_filters src o s :
  src <> Records \/ o = Rejected ->
  filters (settle p src o s) = filters s
  /\ isInitialDateSynchronized (settle p src o s) = isInitialDateSynchronized s.
Proof.
  intros H. destruct o as [data|]; [|split; reflexivity].
  destruct H as [H|]; [|discriminate].
  destruct src; try contradiction; split; reflexivity.
Qed.

Variable net : source -> outcome.

Lemma settle_all_snoc order src s :
  settle_all p (order ++ [src]) net s = settle p src (net src) (settle_all p order net s).
Proof. unfold settle_all. now rewrite fold_left_app. Qed.

Lemma settle_all_rejected src order s :
  net src = Rejected ->
  slot src (settle_all p order net s) = slot src s
  /\ cache_entry (cacheKey p) src (settle_all p order net s) = cache_entry (cacheKey p) src s.
Proof.
  intros Hrej. induction order as [|x order IH] using rev_ind; [split; reflexivity|].
  rewrite settle_all_snoc.
  destruct (settle_frame x src (net x) (settle_all p order net s)) as [H1 H2].
  { destruct (decide (x = src)) as [->|]; auto. }
  rewrite H1, H2. exact IH.
Qed.

Lemma settle_all_resolved src data order s :
  net src = Resolved data -> src ∈ order ->
  slot src (settle_all p order net s) = data
  /\ cache_entry (cacheKey p) src (settle_all p order net s) = Some data.
Proof.
  intros Hres. induction order as [|x order IH] using rev_ind;
    [intros Hin; now apply elem_of_nil in Hin|].
  intros Hin. rewrite settle_all_snoc.
  destruct (decide (x = src)) as [->|Hne].
  - rewrite Hres. apply settle_resolved.
  - destruct (settle_frame x src (net x) (settle_all p order net s)) as [H1 H2]; [auto|].
    rewrite H1, H2. apply IH.
    apply elem_of_app in Hin as [Hin|Hin]; [exact Hin|].
    apply list_elem_of_singleton in Hin. congruence.
Qed.

Lemma settle_all_console order s msg :
  msg ∈ console s -> msg ∈ console (settle_all p order net s).
Proof.
  intros Hm. induction order as [|x order IH] using rev_ind; [exact Hm|].
  rewrite settle_all_snoc. now apply settle_console.
Qed.

Lemma settle_all_logged src order s :
  net src = Rejected -> src ∈ order ->
  error_message src ∈ console (settle_all p order net s)
  /\ failure_message src ∈ console (settle_all p order net s).
Proof.
  intros Hrej. induction order as [|x order IH] using rev_ind;
    [intros Hin; now apply elem_of_nil in Hin|].
  intros Hin. rewrite settle_all_snoc.
  destruct (decide (x = src)) as [->|Hne].
  - rewrite Hrej. apply settle_rejected_logged.
  - destruct IH as [H1 H2]; [|split; now apply settle_console].
    apply elem_of_app in Hin as [Hin|Hin]; [exact Hin|].
    apply list_elem_of_singleton in Hin. congruence.
Qed.

Lemma settle_all_filters order s :
  net Records = Rejected ->
  filters (settle_all p order net s) = filters s
  /\ isInitialDateSynchronized (settle_all p order net s) = isInitialDateSynchronized s.
Proof.
  intros Hrej. induction order as [|x order IH] using rev_ind; [split; reflexivity|].
  rewrite settle_all_snoc.
  destruct (settle_filters x (net x) (settle_all p order net s)) as [H1 H2].
  { destruct (decide (x = Records)) as [->|]; auto. }
  rewrite H1, H2. exact IH.
Qed.

End Settle.


(* ===================================================================== *)
(** ** The chart calculators *)
(* ===================================================================== *)

Section Calculators.

Lemma gender_fold roster : forall m f,
  fold_left
    (fun genderCount emp =>
       if String.eqb (emp_gender emp) "Male" || String.eqb (emp_gender emp) "Female"
       then counter_set (emp_gender emp)
              (S (default 0%nat (counter_get (emp_gender emp) genderCount))) genderCount
       else genderCount)
    roster [("Male", m); ("Female", f)]
  = [("Male", (m + count_gender "Male" roster)%nat);
     ("Female", (f + count_gender "Female" roster)%nat)].
Proof.
  unfold count_gender.
  induction roster as [|emp roster IH]; intros m f; cbn [fold_left List.filter].
  - now rewrite !Nat.add_0_r.
  - destruct (String.eqb (emp_gender emp) "Male") eqn:HM.
    + apply String.eqb_eq in HM. rewrite HM. cbn. rewrite IH.
      repeat (f_equal; try lia).
    + destruct (String.eqb (emp_gender emp) "Female") eqn:HF.
      * apply String.eqb_eq in HF. rewrite HF. cbn. rewrite IH.
        repeat (f_equal; try lia).
      * cbn [orb]. apply IH.
Qed.

Lemma getGenderData_counts roster :
  getGenderData roster
  = [mkNameValue "Male" (count_gender "Male" roster);
     mkNameValue "Female" (count_gender "Female" roster)].
Proof. unfold getGenderData. rewrite gender_fold. reflexivity. Qed.

Lemma range_alter i (l : list TravelRange) :
  map range (alter increment i l) = map range l.
Proof.
  revert i. induction l as [|r l IH]; intros [|i]; cbn; try reflexivity.
  f_equal. apply IH.
Qed.

Lemma range_countTravel acc emp : map range (countTravel acc emp) = map range acc.
Proof.
  unfold countTravel.
  destruct (emp_travelKm emp); try reflexivity;
    repeat match goal with |- context [if ?b then _ else _] => destruct b end;
    apply range_alter.
Qed.

Lemma getTravelData_snoc roster emp :
  getTravelData (roster ++ [emp]) = countTravel (getTravelData roster) emp.
Proof. unfold getTravelData. now rewrite fold_left_app. Qed.

Lemma getTravelData_ranges roster :
  map range (getTravelData roster) = ["0-5"; "5-10"; "10-15"; "15-20"; "20+"].
Proof.
  induction roster as [|emp roster IH] using rev_ind; [reflexivity|].
  now rewrite getTravelData_snoc, range_countTravel.
Qed.

Lemma getTravelData_skip l1 emp l2 :
  emp_travelKm emp = VUndefined \/ emp_travelKm emp = VNull ->
  getTravelData (l1 ++ emp :: l2) = getTravelData (l1 ++ l2).
Proof.
  intros H. unfold getTravelData. rewrite !fold_left_app. cbn [fold_left].
  f_equal. unfold countTravel. now destruct H as [-> | ->].
Qed.

Lemma countTravel_finite acc emp q :
  emp_travelKm emp = VNumber (Fin q) ->
  countTravel acc emp =
    alter increment
      (if Qle_bool q 5 then 0 else if Qle_bool q 10 then 1
       else if Qle_bool q 15 then 2 else if Qle_bool q 20 then 3 else 4)%nat acc.
Proof.
  intros Hkm. unfold countTravel. rewrite Hkm. cbn [ToNumber number_le of_N].
  change (inject_Z (Z.of_N 5)) with 5%Q. change (inject_Z (Z.of_N 10)) with 10%Q.
  change (inject_Z (Z.of_N 15)) with 15%Q. change (inject_Z (Z.of_N 20)) with 20%Q.
  repeat match goal with |- context [if ?b then _ else _] => destruct b end; reflexivity.
Qed.

End Calculators.

(* ===================================================================== *)
(** ** Date-only strings and the local day *)
(* ===================================================================== *)

Section Dates.

Lemma read_fixed_append n : forall s acc k t rest,
  read_fixed n s acc = Some (k, t) ->
  read_fixed n (s +:+ rest) acc = Some (k, t +:+ rest).
Proof.
  induction n as [|n IH]; intros s acc k t rest; cbn [read_fixed].
  - now intros [= <- <-].
  - destruct s as [|c s]; [discriminate|]. rewrite append_cons.
    destruct (is_digit c); [apply IH|discriminate].
Qed.

(** A number below the bound, printed with [n] digits, reads back, once
    this has been checked for each number below the bound. *)
Lemma read_fixed_table n bound :
  forallb (fun k => match read_fixed n (pad n (decimal k)) 0 with
                    | Some (k', EmptyString) => N.eqb k' k
                    | _ => false
                    end) (map N.of_nat (seq 0 (N.to_nat bound))) = true ->
  forall k rest,
    (k < bound)%N -> read_fixed n (pad n (decimal k) +:+ rest) 0 = Some (k, rest).
Proof.
  intros Htable k rest Hk. rewrite forallb_forall in Htable.
  assert (Hin : In k (map N.of_nat (seq 0 (N.to_nat bound)))).
  { apply in_map_iff. exists (N.to_nat k). split; [lia|]. apply in_seq. lia. }
  specialize (Htable k Hin).
  destruct (read_fixed n (pad n (decimal k)) 0) as [[k' [|c t]]|] eqn:E;
    try discriminate Htable.
  apply N.eqb_eq in Htable. subst k'.
  now rewrite (read_fixed_append _ _ _ _ _ rest E).
Qed.

Lemma read_fixed_pad_4 k rest :
  (k < 10000)%N -> read_fixed 4 (pad 4 (decimal k) +:+ rest) 0 = Some (k, rest).
Proof. apply read_fixed_table. vm_compute. reflexivity. Qed.

Lemma read_fixed_pad_2 k rest :
  (k < 100)%N -> read_fixed 2 (pad 2 (decimal k) +:+ rest) 0 = Some (k, rest).
Proof. apply read_fixed_table. vm_compute. reflexivity. Qed.

Lemma days_in_month_le y m : (days_in_month y m <= 31)%N.
Proof.
  unfold days_in_month.
  repeat match goal with
    | |- context [match ?x with _ => _ end] => destruct x
    end; lia.
Qed.

(** [new Date] on the date-only string of a day: the local day of UTC
    midnight of that day. *)
Lemma new_Date_iso h y m d :
  (y < 10000)%N -> (1 <= m <= 12)%N -> (1 <= d <= days_in_month (Z.of_N y) m)%N ->
  new_Date h (iso_date y m d) = local_day h (Z.of_N y) m d.
Proof.
  intros Hy Hm Hd. pose proof (days_in_month_le (Z.of_N y) m) as H31.
  unfold new_Date, iso_date.
  change ("-" +:+ ?x) with (String "-" x).
  rewrite read_fixed_pad_4 by exact Hy. cbv beta iota.
  rewrite read_fixed_pad_2 by lia.
  change ("-" +:+ ?x) with (String "-" x). cbv beta iota.
  rewrite <- (append_nil_r (pad 2 (decimal d))) at 1.
  rewrite read_fixed_pad_2 by lia. cbv beta iota.
  replace ((1 <=? m) && (m <=? 12) && (1 <=? d)
           && (d <=? days_in_month (Z.of_N y) m))%N with true; [reflexivity|].
  symmetry. rewrite !andb_true_iff, !N.leb_le. lia.
Qed.

Lemma local_day_east h y m d :
  (0 <= LocalTZA h y m d < msPerDay)%Z -> local_day h y m d = Day y m d.
Proof.
  intros H. unfold local_day. now rewrite Z.div_small.
Qed.

Lemma local_day_west h y m d :
  (- msPerDay <= LocalTZA h y m d < 0)%Z ->
  local_day h y m d = (let '(y', m', d') := previous_day (y, m, d) in Day y' m' d').
Proof.
  intros H. unfold local_day.
  replace (LocalTZA h y m d / msPerDay)%Z with (-1)%Z; [reflexivity|].
  unfold msPerDay in *.
  apply Z.div_unique with (r := (LocalTZA h y m d + 86400000)%Z); lia.
Qed.

Lemma pad_digits w n : all_digits (pad w (decimal n)) = true.
Proof.
  unfold pad. generalize (w - String.length (decimal n))%nat. intros k.
  induction k as [|k IH]; [apply decimal_all_digits|].
  cbn [repeat String.concat]. destruct (repeat "0" k) eqn:E.
  - cbn [repeat String.concat] in *. exact IH.
  - rewrite append_cons. cbn [all_digits]. rewrite append_nil_l. exact IH.
Qed.

Lemma pad_head w n : exists c s, pad w (decimal n) = String c s /\ is_digit c = true.
Proof.
  pose proof (pad_digits w n) as H. unfold pad in *.
  destruct (String.concat "" (repeat "0" (w - String.length (decimal n)))) as [|c s].
  - rewrite append_nil_l. apply decimal_head.
  - rewrite append_cons in *. cbn [all_digits] in H. apply andb_prop in H as [Hc _].
    eauto.
Qed.

Lemma iso_date_truthy y m d : string_truthy (iso_date y m d) = true.
Proof.
  unfold iso_date. destruct (pad_head 4 y) as (c & s & -> & _). reflexivity.
Qed.

End Dates.

(* ===================================================================== *)
(** ** The records handler and the date synchronisation *)
(* ===================================================================== *)

Section RecordsHandler.
Variable p : pass.

Lemma onRecords_sync o rest d s :
  isInitialDateSynchronized s = false ->
  date (captured p) = None ->
  date_of o = Some d ->
  string_truthy d = true ->
  filters (onRecords p (JArray (o :: rest)) s)
  = with_date (Some (new_Date (host s) d)) (filters s)
  /\ isInitialDateSynchronized (onRecords p (JArray (o :: rest)) s) = true.
Proof.
  intros Hflag Hdate Ho Hd. unfold onRecords, shouldSync. state_simpl.
  rewrite Hflag, Hdate. cbn [negb andb bool_decide length_of first_date length].
  destruct d as [|c d]; [discriminate|]. rewrite Ho. cbn. now rewrite Ho.
Qed.

Lemma onRecords_synced x s :
  isInitialDateSynchronized s = true ->
  nonempty x ->
  filters (onRecords p x s) = filters s
  /\ isInitialDateSynchronized (onRecords p x s) = true.
Proof.
  intros Hflag Hx. destruct x as [| |[|o rest]]; try contradiction.
  unfold onRecords, shouldSync, shouldReset. state_simpl. rewrite Hflag.
  cbn. now rewrite Hflag.
Qed.

Lemma onRecords_reset s :
  isInitialDateSynchronized s = true ->
  is_Some (date (captured p)) ->
  filters (onRecords p (JArray []) s) = filters s
  /\ isInitialDateSynchronized (onRecords p (JArray []) s) = false.
Proof.
  intros Hflag [d Hd]. unfold onRecords, shouldSync, shouldReset. state_simpl.
  rewrite Hflag, Hd. cbn. split; reflexivity.
Qed.

Lemma onRecords_else x s :
  shouldSync (captured p) x s = Some false ->
  ~ (isInitialDateSynchronized s = true /\ x = JArray [] /\ is_Some (date (captured p))) ->
  filters (onRecords p x s) = filters s
  /\ isInitialDateSynchronized (onRecords p x s) = isInitialDateSynchronized s.
Proof.
  intros Hsync Hno. unfold onRecords.
  change (shouldSync (captured p) x _) with (shouldSync (captured p) x s).
  rewrite Hsync.
  change (shouldReset (captured p) x _) with (shouldReset (captured p) x s).
  unfold shouldReset.
  destruct (isInitialDateSynchronized s) eqn:Hflag; [|now state_simpl].
  destruct x as [| |[|o rest]]; cbn [length_of length Nat.eqb andb];
    try (now state_simpl).
  destruct (date (captured p)) as [d|] eqn:Hd; [|now state_simpl].
  exfalso. apply Hno. eauto.
Qed.

End RecordsHandler.

(** Responses of later runs, each handled with the closure of its own run. *)
Lemma onRecords_later later : forall s,
  isInitialDateSynchronized s = true ->
  Forall (fun px : pass * json => nonempty (snd px)) later ->
  let s' := fold_left (fun s px => onRecords (fst px) (snd px) s) later s in
  filters s' = filters s /\ isInitialDateSynchronized s' = true.
Proof.
  induction later as [|[p x] later IH]; intros s Hflag Hall; [split; [reflexivity|exact Hflag]|].
  apply Forall_cons in Hall as [Hx Hall]. cbn [fold_left fst snd].
  destruct (onRecords_synced p x s Hflag Hx) as [Hf Hs].
  destruct (IH _ Hs Hall) as [Hf' Hs']. cbv zeta. rewrite Hf', Hf. now split.
Qed.

(** C4.  Once the ref is set, an empty array that arrives while the captured
    date filter is set clears the ref, after which a non-empty response
    handled with an unset date filter synchronises again, to the date of its
    first record; in every other case in which the handler takes its
    else-branch the ref (and the filter state) is left as it was. *)
Theorem auto_sync_reset :
  (forall p s,
     isInitialDateSynchronized s = true ->
     is_Some (date (captured p)) ->
     let s1 := onRecords p (JArray []) s in
     isInitialDateSynchronized s1 = false
     /\ filters s1 = filters s
     /\ forall p' o rest d,
          date (captured p') = None -> date_of o = Some d -> string_truthy d = true ->
          let s2 := onRecords p' (JArray (o :: rest)) s1 in
          date (filters s2) = Some (new_Date (host s1) d)
          /\ isInitialDateSynchronized s2 = true)
  /\ (forall p x s,
        shouldSync (captured p) x s = Some false ->
        ~ (isInitialDateSynchronized s = true /\ x = JArray []
           /\ is_Some (date (captured p))) ->
        isInitialDateSynchronized (onRecords p x s) = isInitialDateSynchronized s
        /\ filters (onRecords p x s) = filters s).
Proof.
  split.
  - intros p s Hflag Hdate s1.
    destruct (onRecords_reset p s Hflag Hdate) as [Hf Hs].
    split; [exact Hs|]. split; [exact Hf|].
    intros p' o rest d Hd' Ho Hd.
    destruct (onRecords_sync p' o rest d s1 Hs Hd' Ho Hd) as [Hf' Hs'].
    cbv zeta. now rewrite Hf'.
  - intros p x s Hsync Hno. destruct (onRecords_else p x s Hsync Hno). now split.
Qed.

(** A run of the reset: synchronised to 1 March, the query for that date
    comes back empty, and the next response with no date filter moves the
    filter to 4 March. *)
Lemma auto_sync_reset_run :
  let stale := mkPass (mkFilters "all" "all" "all" "all" (Some (Day 2024 3 1)))
                 "attendanceRecords_2024-03-01_all_all_all_any_any" in
  let fresh := mkPass (mkFilters "all" "all" "all" "all" None)
                 "attendanceRecords_latest_all_all_all_any_any" in
  let s := setSynchronized true (initial_state utc ∅ ∅) in
  let s1 := onRecords stale (JArray []) s in
  isInitialDateSynchronized s1 = false
  /\ filters s1 = filters s
  /\ forall p' o rest d,
       date (captured p') = None -> date_of o = Some d -> string_truthy d = true ->
       let s2 := onRecords p' (JArray (o :: rest)) s1 in
       date (filters s2) = Some (new_Date (host s1) d)
       /\ isInitialDateSynchronized s2 = true.
Proof.
  exact (proj1 auto_sync_reset
           (mkPass (mkFilters "all" "all" "all" "all" (Some (Day 2024 3 1)))
              "attendanceRecords_2024-03-01_all_all_all_any_any")
           (setSynchronized true (initial_state utc ∅ ∅)) eq_refl
           (ex_intro _ (Day 2024 3 1) eq_refl)).
Defined.

(* ===================================================================== *)
(** ** The derived-state calculators *)
(* ===================================================================== *)

(** C5.  The travel histogram always consists of the five buckets 0-5, 5-10,
    10-15, 15-20 and 20+, in that order; an employee whose [travelKm] is
    undefined or null changes no count; a numeric distance is counted in the
    bucket whose upper bound is the first one it does not exceed, so 5 falls
    in 0-5 and 10 in 5-10; the distances 5, 10, 15, 20, 25 give one employee
    per bucket. *)
Theorem travel_histogram :
  (forall roster,
     map range (getTravelData roster) = ["0-5"; "5-10"; "10-15"; "15-20"; "20+"])
  /\ (forall l1 emp l2,
        emp_travelKm emp = VUndefined \/ emp_travelKm emp = VNull ->
        getTravelData (l1 ++ emp :: l2) = getTravelData (l1 ++ l2))
  /\ (forall roster emp (q : Q),
        emp_travelKm emp = VNumber (Fin q) ->
        (q <= 5 -> getTravelData (roster ++ [emp]) = alter increment 0%nat (getTravelData roster))
        /\ (5 < q <= 10 ->
            getTravelData (roster ++ [emp]) = alter increment 1%nat (getTravelData roster))
        /\ (10 < q <= 15 ->
            getTravelData (roster ++ [emp]) = alter increment 2%nat (getTravelData roster))
        /\ (15 < q <= 20 ->
            getTravelData (roster ++ [emp]) = alter increment 3%nat (getTravelData roster))
        /\ (20 < q ->
            getTravelData (roster ++ [emp]) = alter increment 4%nat (getTravelData roster)))%Q
  /\ (forall g d,
        getTravelData [mkEmployee g d (VNumber (of_N 5))]
          = [mkRange "0-5" 1; mkRange "5-10" 0; mkRange "10-15" 0;
             mkRange "15-20" 0; mkRange "20+" 0]
        /\ getTravelData [mkEmployee g d (VNumber (of_N 10))]
          = [mkRange "0-5" 0; mkRange "5-10" 1; mkRange "10-15" 0;
             mkRange "15-20" 0; mkRange "20+" 0]
        /\ getTravelData
             (map (fun km => mkEmployee g d (VNumber (of_N km))) [5; 10; 15; 20; 25]%N)
          = [mkRange "0-5" 1; mkRange "5-10" 1; mkRange "10-15" 1;
             mkRange "15-20" 1; mkRange "20+" 1]).
Proof.
  split; [exact getTravelData_ranges|].
  split; [exact getTravelData_skip|].
  split; [|intros g d; repeat split; reflexivity].
  intros roster emp q Hkm.
  rewrite getTravelData_snoc, (countTravel_finite _ _ _ Hkm).
  repeat split; intros Hq;
    repeat match goal with
      | |- context [Qle_bool ?a ?b] =>
          let E := fresh "E" in
          destruct (Qle_bool a b) eqn:E;
          [apply Qle_bool_iff in E
          |apply not_true_iff_false in E; rewrite Qle_bool_iff in E]
      end; try reflexivity; exfalso; lra.
Qed.

(** C6.  The gender distribution has exactly the two entries Male and
    Female, in that order, and each counts the employees whose gender is
    exactly that string; any other gender adds to neither.  For the roster
    Male, Female, Other both counts are 1. *)
Theorem gender_distribution :
  (forall roster,
     getGenderData roster
     = [mkNameValue "Male" (count_gender "Male" roster);
        mkNameValue "Female" (count_gender "Female" roster)])
  /\ (forall l1 emp l2,
        emp_gender emp <> "Male" -> emp_gender emp <> "Female" ->
        getGenderData (l1 ++ emp :: l2) = getGenderData (l1 ++ l2))
  /\ (forall d1 d2 d3 k1 k2 k3,
        getGenderData [mkEmployee "Male" d1 k1; mkEmployee "Female" d2 k2;
                       mkEmployee "Other" d3 k3]
        = [mkNameValue "Male" 1; mkNameValue "Female" 1]).
Proof.
  split; [exact getGenderData_counts|].
  split; [|intros; reflexivity].
  intros l1 emp l2 HM HF. rewrite !getGenderData_counts. unfold count_gender.
  rewrite !List.filter_app. cbn [List.filter].
  apply String.eqb_neq in HM, HF. now rewrite HM, HF.
Qed.

(* ===================================================================== *)
(** ** The client-side roster filter *)
(* ===================================================================== *)

Lemma filter_twice {A} (g h : A -> bool) (l : list A) :
  List.filter h (List.filter g l) = List.filter (fun x => g x && h x) l.
Proof.
  induction l as [|x l IH]; [reflexivity|]. cbn [List.filter].
  destruct (g x); cbn [List.filter andb]; [destruct (h x)|]; now rewrite IH.
Qed.

Lemma filter_true {A} (l : list A) : List.filter (fun _ => true) l = l.
Proof. induction l as [|x l IH]; [reflexivity|]. cbn. now rewrite IH. Qed.

(** With the bucket 20-100 the effect keeps the employees that pass [keeps]
    with the bounds 20 and 100. *)
Lemma filterEmployees_20_100 f roster :
  travelDistance f = "20-100" ->
  filterEmployees f roster = List.filter (keeps f (of_N 20) (of_N 100)) roster.
Proof.
  intros Hbucket. unfold filterEmployees. destruct roster as [|emp roster]; [reflexivity|].
  rewrite Hbucket.
  change (map Number_of_string (split "-" "20-100")) with [of_N 20; of_N 100].
  cbn [negb String.eqb Ascii.eqb Bool.eqb lookup list_lookup default from_option id].
  cbv zeta. generalize (emp :: roster). intros l.
  destruct (String.eqb (gender f) "all") eqn:Hg;
    destruct (String.eqb (department f) "all") eqn:Hd; cbn [negb];
    rewrite ?filter_twice; apply List.filter_ext; intros e; unfold keeps;
    rewrite Hg, Hd; cbn [orb andb]; rewrite ?andb_true_r, ?andb_assoc; reflexivity.
Qed.

(** C10.  Under the bucket 20-100 the filtered roster holds exactly the
    employees (that pass the gender and department filters and) whose
    distance lies in [20, 100]: one who travels more than 100 km is left
    out of the filtered roster, so no demographics chart counts them,
    although the same bucket sends no upper bound to the server and the
    histogram, given such an employee, counts them in 20+. *)
Theorem bucket_20_100_is_capped_client_side (f : FilterState) :
  travelDistance f = "20-100" ->
  (forall roster emp,
     In emp (filterEmployees f roster) <->
     In emp roster
     /\ (gender f = "all" \/ emp_gender emp = gender f)
     /\ (department f = "all" \/ emp_department emp = department f)
     /\ number_le (of_N 20) (ToNumber (emp_travelKm emp)) = true
     /\ number_le (ToNumber (emp_travelKm emp)) (of_N 100) = true)
  /\ (forall (q : Q) emp,
        emp_travelKm emp = VNumber (Fin q) ->
        (number_le (of_N 20) (ToNumber (emp_travelKm emp)) = true
         /\ number_le (ToNumber (emp_travelKm emp)) (of_N 100) = true
         <-> (20 <= q <= 100)%Q)
        /\ ((100 < q)%Q ->
            (forall l1 l2,
               filterEmployees f (l1 ++ emp :: l2) = filterEmployees f (l1 ++ l2))
            /\ (forall roster,
                  getTravelData (roster ++ [emp])
                  = alter increment 4%nat (getTravelData roster))))
  /\ travelBounds (travelDistance f) = (Some (of_N 20), None).
Proof.
  intros Hbucket. split; [|split].
  - intros roster emp. rewrite (filterEmployees_20_100 f roster Hbucket).
    rewrite List.filter_In. unfold keeps, number_ge.
    rewrite !andb_true_iff, !orb_true_iff, !String.eqb_eq. tauto.
  - intros q emp Hkm. rewrite Hkm. cbn [ToNumber number_le of_N].
    change (inject_Z (Z.of_N 20)) with 20%Q. change (inject_Z (Z.of_N 100)) with 100%Q.
    rewrite !Qle_bool_iff. split; [tauto|]. intros Hq. split.
    + intros l1 l2. rewrite !(filterEmployees_20_100 f _ Hbucket), !List.filter_app.
      cbn [List.filter]. unfold keeps at 2, number_ge. rewrite Hkm.
      cbn [ToNumber number_le of_N]. change (inject_Z (Z.of_N 100)) with 100%Q.
      destruct (Qle_bool q 100) eqn:E; [apply Qle_bool_iff in E; lra|].
      now rewrite !andb_false_r.
    + intros roster. rewrite getTravelData_snoc, (countTravel_finite _ _ _ Hkm).
      repeat match goal with
        | |- context [Qle_bool ?a ?b] =>
            let E := fresh "E" in
            destruct (Qle_bool a b) eqn:E; [apply Qle_bool_iff in E; lra|]
        end. reflexivity.
  - rewrite Hbucket. reflexivity.
Qed.

(** An employee 150 km away, alone on the roster, under the filter state
    that only selects the bucket 20-100. *)
Lemma far_employee_is_filtered_out :
  let f := mkFilters "all" "all" "20-100" "all" None in
  let far := mkEmployee "Female" "Sales" (VNumber (of_N 150)) in
  filterEmployees f [far] = []
  /\ getDepartmentData (filterEmployees f [far]) = []
  /\ getGenderData (filterEmployees f [far]) = [mkNameValue "Male" 0; mkNameValue "Female" 0]
  /\ map count (getTravelData (filterEmployees f [far])) = [0; 0; 0; 0; 0]%nat
  /\ map count (getTravelData [far]) = [0; 0; 0; 0; 1]%nat.
Proof.
  pose proof (proj1 (proj2 (bucket_20_100_is_capped_client_side
                              (mkFilters "all" "all" "20-100" "all" None) eq_refl))
                (inject_Z 150) (mkEmployee "Female" "Sales" (VNumber (of_N 150))) eq_refl)
    as [_ Hfar].
  assert (Hq : (100 < inject_Z 150)%Q) by reflexivity.
  destruct (Hfar Hq) as [Hout Hin].
  pose proof (Hout [] []) as Hnone. cbn [app] in Hnone.
  cbv zeta. rewrite Hnone. repeat split.
Defined.

(* ===================================================================== *)
(** ** Travel bounds and the cache key *)
(* ===================================================================== *)

Lemma travelBounds_bucket a b :
  b <> 100%N ->
  travelBounds (bucket a b) = (Some (of_N a), Some (of_N b)).
Proof.
  intros Hb. unfold travelBounds, bucket.
  destruct (decimal_head a) as (c & s & Ha & Hc).
  destruct (digit_cases c Hc) as (_ & _ & _ & _ & Hall & _).
  assert (Hne : String.eqb (decimal a +:+ "-" +:+ decimal b) "all" = false).
  { rewrite Ha, append_cons. cbn [String.eqb]. now rewrite Hall. }
  rewrite Hne. cbn [negb].
  change ("-" +:+ decimal b) with (String "-" (decimal b)).
  rewrite split_digits by apply decimal_all_digits.
  rewrite split_digits_only by apply decimal_all_digits.
  cbn [lookup list_lookup parseFloat_opt strict_eq].
  rewrite !parseFloat_decimal.
  destruct (String.eqb (decimal b) "100") eqn:E; [|reflexivity].
  apply String.eqb_eq in E. change "100" with (decimal 100) in E.
  apply decimal_inj in E. contradiction.
Qed.

(** C8.  The bucket 20-100 gives [travelMin = 20] and no [travelMax]; a
    bucket [a-b] whose upper bound is not 100 gives [travelMin = a] and
    [travelMax = b] (for bounds a binary64 holds exactly), which covers the
    other four buckets of the filter UI. *)
Theorem travel_bounds_of_buckets :
  travelBounds "20-100" = (Some (of_N 20), None)
  /\ (forall a b : N,
        (a < 10 ^ 15)%N -> (b < 10 ^ 15)%N -> b <> 100%N ->
        travelBounds (bucket a b) = (Some (of_N a), Some (of_N b)))
  /\ map travelBounds DashboardFilters.travelDistanceOptions
     = [ (None, None);
         (Some (of_N 0), Some (of_N 5));
         (Some (of_N 5), Some (of_N 10));
         (Some (of_N 10), Some (of_N 15));
         (Some (of_N 15), Some (of_N 20));
         (Some (of_N 20), None) ].
Proof.
  split; [reflexivity|]. split; [|reflexivity].
  intros a b _ _. apply travelBounds_bucket.
Qed.

(** The bucket 5-10 of the filter UI. *)
Lemma travel_bounds_5_10 :
  travelBounds "5-10" = (Some (of_N 5), Some (of_N 10)).
Proof.
  apply (proj1 (proj2 travel_bounds_of_buckets) 5%N 10%N);
    [reflexivity | reflexivity | discriminate].
Defined.

(** When the date filter is set and valid, the synchronous part of a run
    completes, whatever the stores hold. *)
Lemma fetchData_sync_dated f s d dp :
  date f = Some d ->
  format_yyyy_MM_dd d = Some dp ->
  exists s1, fetchData_sync f s = (s1, Some (mkPass f (passKey f (Some dp)))).
Proof.
  intros Hd Hfmt. unfold fetchData_sync, dateParam, passKey, shouldSync.
  rewrite Hd, Hfmt.
  destruct (travelBounds (travelDistance f)) as [travelMin travelMax]. cbn [fst snd].
  cbv zeta.
  destruct (sessionStorage s !! attendanceCacheKey _ _ _ _ _ _) as [r|];
    cbn [bool_decide decide_rel negb]; rewrite ?andb_false_r; eexists; reflexivity.
Qed.

(** With no date filter it completes unless the records entry of the run
    holds [null] (reading its length throws). *)
Lemma fetchData_sync_undated f s :
  date f = None ->
  sessionStorage s !! passKey f None <> Some JNull ->
  exists s1, fetchData_sync f s = (s1, Some (mkPass f (passKey f None))).
Proof.
  intros Hd Hnull. unfold fetchData_sync, dateParam, shouldSync. unfold passKey in *.
  rewrite Hd.
  destruct (travelBounds (travelDistance f)) as [travelMin travelMax]. cbn [fst snd] in *.
  cbv zeta.
  destruct (sessionStorage s !! attendanceCacheKey _ _ _ _ _ _) as [[| |items]|];
    try contradiction; state_simpl;
    destruct (isInitialDateSynchronized s); cbn;
    repeat match goal with |- context [if ?b then _ else _] => destruct b end;
    eexists; reflexivity.
Qed.

(** An invalid date stops the run before any request is issued, with the
    loading flag still raised. *)
Remark invalid_date_stops_the_run :
  let f := mkFilters "all" "all" "all" "all" (Some InvalidDate) in
  let s := runEffect f all_sources (fun _ => Resolved (JArray [])) (initial_state utc ∅ ∅) in
  requests s = [] /\ isLoading s = true.
Proof. split; reflexivity. Qed.

(** C7.  The cache key of a run is a function of the date, the gender, the
    department, the attendance status and the two travel bounds alone: two
    runs that agree on these six values compute the same key, whatever else
    differs (the bucket string the bounds came from, the component state,
    the stores), and the key is the template instance of exactly these
    values. *)
Theorem cache_key_deterministic (f1 f2 : FilterState) (s1 s2 s1' s2' : state)
    (p1 p2 : pass) :
  date f1 = date f2 ->
  gender f1 = gender f2 ->
  department f1 = department f2 ->
  attendanceStatus f1 = attendanceStatus f2 ->
  travelBounds (travelDistance f1) = travelBounds (travelDistance f2) ->
  fetchData_sync f1 s1 = (s1', Some p1) ->
  fetchData_sync f2 s2 = (s2', Some p2) ->
  cacheKey p1 = cacheKey p2
  /\ exists dp,
       dateParam f1 = Some dp
       /\ cacheKey p1
          = attendanceCacheKey dp (gender f1) (department f1) (attendanceStatus f1)
              (fst (travelBounds (travelDistance f1)))
              (snd (travelBounds (travelDistance f1))).
Proof.
  intros Hd Hg Hdep Hst Htr H1 H2.
  apply fetchData_sync_inv in H1 as (dp1 & Hdp1 & -> & _).
  apply fetchData_sync_inv in H2 as (dp2 & Hdp2 & -> & _).
  assert (dp1 = dp2) as <-.
  { unfold dateParam in *. rewrite Hd in Hdp1. congruence. }
  cbn [cacheKey]. unfold passKey. rewrite Hg, Hdep, Hst, Htr.
  split; [reflexivity|]. exists dp1. split; [exact Hdp1|].
  now rewrite <- Hg, <- Hdep, <- Hst, <- Htr.
Qed.

(** Two runs that differ in the bucket string and in everything the
    component holds, and agree on the six values. *)
Lemma cache_key_same_for_equal_inputs :
  let f1 := mkFilters "Male" "Finance" "5-10" "Late" (Some (Day 2024 3 1)) in
  let f2 := mkFilters "Male" "Finance" "05-10.0" "Late" (Some (Day 2024 3 1)) in
  let st1 := initial_state utc ∅ ∅ in
  let st2 := setSynchronized true
               (initial_state utc {["employeeData" := JArray []]}
                  {["lateStatistics" := JNull]}) in
  exists s1' s2' p1 p2,
    fetchData_sync f1 st1 = (s1', Some p1)
    /\ fetchData_sync f2 st2 = (s2', Some p2)
    /\ cacheKey p1 = cacheKey p2
    /\ cacheKey p1 = "attendanceRecords_2024-03-01_Male_Finance_Late_5_10".
Proof.
  cbv zeta. eexists _, _, _, _.
  split; [reflexivity|]. split; [reflexivity|].
  split; [|reflexivity].
  exact (proj1 (cache_key_deterministic
                  (mkFilters "Male" "Finance" "5-10" "Late" (Some (Day 2024 3 1)))
                  (mkFilters "Male" "Finance" "05-10.0" "Late" (Some (Day 2024 3 1)))
                  (initial_state utc ∅ ∅)
                  (setSynchronized true
                     (initial_state utc {["employeeData" := JArray []]}
                        {["lateStatistics" := JNull]}))
                  _ _ _ _
                  eq_refl eq_refl eq_refl eq_refl eq_refl eq_refl eq_refl)).
Defined.

(* ===================================================================== *)
(** ** The records request *)
(* ===================================================================== *)

Lemma last_of_five {A} (l : list A) a b c d e :
  last (l ++ [a; b; c; d; e])%list = Some e.
Proof.
  replace (l ++ [a; b; c; d; e])%list with ((l ++ [a; b; c; d]) ++ [e])%list
    by (rewrite <- app_assoc; reflexivity).
  apply last_snoc.
Qed.

Lemma recordsRequest_path f dp : path (recordsRequest f dp) = "/attendance/records".
Proof. reflexivity. Qed.

(** The request carries at most the four parameters that api.ts knows. *)
Lemma recordsRequest_params f dp k :
  is_Some (params (recordsRequest f dp) !! k) ->
  k ∈ ["date_filter"; "gender_filter"; "travelDistanceMin"; "travelDistanceMax"].
Proof.
  intros Hk. rewrite list_elem_of_In. cbn [In].
  destruct (decide (k = "date_filter")) as [->|H1]; [auto|].
  destruct (decide (k = "gender_filter")) as [->|H2]; [auto|].
  destruct (decide (k = "travelDistanceMin")) as [->|H3]; [auto|].
  destruct (decide (k = "travelDistanceMax")) as [->|H4]; [auto 6|].
  exfalso. revert Hk. unfold recordsRequest, getAllAttendanceRecords. cbn [params].
  repeat match goal with
    | |- context [match ?x with Some _ => _ | None => _ end] => destruct x
    | |- context [if ?b then _ else _] => destruct b
    end;
    rewrite ?lookup_insert_ne by congruence; rewrite lookup_empty;
    intros [? ?]; discriminate.
Qed.

(** C2 (evaluated).  The records request of a run carries only
    [date_filter], [gender_filter], [travelDistanceMin] and
    [travelDistanceMax]: it is the same request whatever the department and
    the attendance status of the filter state are.  With the department
    Engineering and the status Late selected, on 1 March 2024, the request
    that goes out has the date as its only parameter. *)
Theorem department_and_status_are_not_sent :
  (forall f dp k,
     is_Some (params (recordsRequest f dp) !! k) ->
     k ∈ ["date_filter"; "gender_filter"; "travelDistanceMin"; "travelDistanceMax"])
  /\ (forall f dp dept status,
        recordsRequest (mkFilters (gender f) dept (travelDistance f) status (date f)) dp
        = recordsRequest f dp)
  /\ (forall s : state,
        let f := mkFilters "all" "Engineering" "all" "Late" (Some (Day 2024 3 1)) in
        exists s1 p,
          fetchData_sync f s = (s1, Some p)
          /\ last (requests s1)
             = Some (mkRequest "/attendance/records"
                       {["date_filter" := PString "2024-03-01"]})).
Proof.
  split; [exact recordsRequest_params|]. split; [reflexivity|].
  intros s f.
  destruct (fetchData_sync_dated f s (Day 2024 3 1) "2024-03-01" eq_refl eq_refl)
    as [s1 H1].
  eexists s1, _. split; [exact H1|].
  apply fetchData_sync_inv in H1 as (dp & Hdp & _ & Hreq & _).
  injection Hdp as <-. rewrite Hreq, last_of_five. reflexivity.
Qed.

(** C1 (evaluated).  For the filter state Female, Engineering, 0-5, all,
    1 March 2024 the run issues the records request with
    [gender_filter=Female], [travelDistanceMin=0], [travelDistanceMax=5],
    [date_filter=2024-03-01] and nothing else, and the handler stores the
    response under the key that ends in [any_5]: the lower bound 0 is falsy
    in the template of the key.  The entry the claim names, ending in [0_5],
    is not written. *)
Theorem scenario_request_and_cache_key (s : state) (data : json) :
  let f := mkFilters "Female" "Engineering" "0-5" "all" (Some (Day 2024 3 1)) in
  exists s1 p,
    fetchData_sync f s = (s1, Some p)
    /\ last (requests s1)
       = Some (mkRequest "/attendance/records"
                 {[ "date_filter" := PString "2024-03-01";
                    "gender_filter" := PString "Female";
                    "travelDistanceMin" := PNumber (of_N 0);
                    "travelDistanceMax" := PNumber (of_N 5) ]})
    /\ cacheKey p = "attendanceRecords_2024-03-01_Female_Engineering_all_any_5"
    /\ sessionStorage (settle p Records (Resolved data) s1)
         !! "attendanceRecords_2024-03-01_Female_Engineering_all_any_5" = Some data
    /\ sessionStorage (settle p Records (Resolved data) s1)
         !! "attendanceRecords_2024-03-01_Female_Engineering_all_0_5"
       = sessionStorage s !! "attendanceRecords_2024-03-01_Female_Engineering_all_0_5".
Proof.
  intros f.
  destruct (fetchData_sync_dated f s (Day 2024 3 1) "2024-03-01" eq_refl eq_refl)
    as [s1 H1].
  eexists s1, _. split; [exact H1|].
  apply fetchData_sync_inv in H1 as (dp & Hdp & _ & Hreq & _ & Hsession & _).
  injection Hdp as <-.
  pose proof (onRecords_frame
                (mkPass f (passKey f (Some "2024-03-01"))) data s1) as Hframe.
  cbv zeta in Hframe. destruct Hframe as (_ & Hstore & _).
  cbn [settle onResolved]. rewrite Hstore, Hsession.
  change (cacheKey (mkPass f (passKey f (Some "2024-03-01"))))
    with "attendanceRecords_2024-03-01_Female_Engineering_all_any_5".
  split; [|split; [reflexivity|split]].
  - rewrite Hreq, last_of_five. reflexivity.
  - apply lookup_insert_eq.
  - apply lookup_insert_ne. discriminate.
Qed.

(* ===================================================================== *)
(** ** Failure isolation of a run *)
(* ===================================================================== *)

(** C3 (evaluated).  In the success handler of the records request, with the
    ref unset and no date filter captured, a non-empty array whose first
    record is dated [y-m-d] sets the ref, and no later non-empty response,
    of this or of any later run, changes the filter state or the ref again.
    The date the filter takes is the local calendar day of UTC midnight of
    [y-m-d]: the day of the record where local time is at or ahead of UTC,
    the day before it where local time is behind.  So for the response
    [[{date: 2024-03-01}]] in a browser five hours behind UTC the date
    filter is 29 February 2024 and the next run asks the server for
    2024-02-29; at UTC it is 1 March 2024, the day the claim names. *)
Theorem auto_sync_takes_the_local_day :
  (forall (p : pass) (o : jsobject) (rest : list jsobject) (y m d : N) (s : state),
     isInitialDateSynchronized s = false ->
     date (captured p) = None ->
     (y < 10000)%N -> (1 <= m <= 12)%N -> (1 <= d <= days_in_month (Z.of_N y) m)%N ->
     date_of o = Some (iso_date y m d) ->
     let s' := onRecords p (JArray (o :: rest)) s in
     let offset := LocalTZA (host s) (Z.of_N y) m d in
     ((0 <= offset < msPerDay)%Z -> date (filters s') = Some (Day (Z.of_N y) m d))
     /\ ((- msPerDay <= offset < 0)%Z ->
         date (filters s')
         = Some (if (1 <? d)%N then Day (Z.of_N y) m (d - 1)
                 else if (1 <? m)%N
                      then Day (Z.of_N y) (m - 1) (days_in_month (Z.of_N y) (m - 1))
                      else Day (Z.of_N y - 1) 12 31))
     /\ isInitialDateSynchronized s' = true
     /\ forall later : list (pass * json),
          Forall (fun px => nonempty (snd px)) later ->
          let s'' := fold_left (fun s px => onRecords (fst px) (snd px) s) later s' in
          filters s'' = filters s' /\ isInitialDateSynchronized s'' = true)
  /\ (let p := mkPass (mkFilters "all" "all" "all" "all" None)
                 "attendanceRecords_latest_all_all_all_any_any" in
      let r := ORecord (mkRecord 1 "Asha" (Some "2024-03-01") "OnTime") in
      let behind := onRecords p (JArray [r]) (initial_state (zone (-18000000)) ∅ ∅) in
      let at_utc := onRecords p (JArray [r]) (initial_state utc ∅ ∅) in
      date (filters behind) = Some (Day 2024 2 29)
      /\ (exists s1 p',
            fetchData_sync (filters behind) behind = (s1, Some p')
            /\ last (requests s1)
               = Some (mkRequest "/attendance/records"
                         {["date_filter" := PString "2024-02-29"]}))
      /\ date (filters at_utc) = Some (Day 2024 3 1)).
Proof.
  split.
  - intros p o rest y m d s Hflag Hdate Hy Hm Hd Ho s' offset.
    destruct (onRecords_sync p o rest (iso_date y m d) s Hflag Hdate Ho
                (iso_date_truthy y m d)) as [Hf Hs].
    subst s' offset. rewrite new_Date_iso in Hf by assumption.
    split; [|split; [|split; [exact Hs|]]].
    + intros Hoff. rewrite Hf, local_day_east by exact Hoff. reflexivity.
    + intros Hoff. rewrite Hf, local_day_west by exact Hoff. unfold previous_day.
      cbn [date with_date].
      destruct (1 <? d)%N; [reflexivity|]. now destruct (1 <? m)%N.
    + intros later Hall. exact (onRecords_later later _ Hs Hall).
  - cbv zeta.
    set (behind := onRecords _ _ (initial_state (zone (-18000000)) ∅ ∅)).
    assert (Hf : filters behind
                 = mkFilters "all" "all" "all" "all" (Some (Day 2024 2 29)))
      by (vm_compute; reflexivity).
    rewrite Hf. split; [reflexivity|]. split; [|vm_compute; reflexivity].
    destruct (fetchData_sync_dated
                (mkFilters "all" "all" "all" "all" (Some (Day 2024 2 29))) behind
                (Day 2024 2 29) "2024-02-29" eq_refl eq_refl) as [s1 H1].
    eexists s1, _. split; [exact H1|].
    apply fetchData_sync_inv in H1 as (dp & Hdp & _ & Hreq & _).
    injection Hdp as <-. rewrite Hreq, last_of_five. reflexivity.
Qed.

(** No handler issues or withdraws a request. *)
Lemma settle_requests p src o s : requests (settle p src o s) = requests s.
Proof.
  destruct o as [data|]; [|reflexivity].
  destruct src; try reflexivity. cbn [settle onResolved].
  now destruct (onRecords_frame p data s) as (_ & _ & _ & _ & _ & _ & _ & _ & ->).
Qed.

Lemma settle_all_requests p order net s :
  requests (settle_all p order net s) = requests s.
Proof.
  induction order as [|x order IH] using rev_ind; [reflexivity|].
  now rewrite settle_all_snoc, settle_requests.
Qed.

(** C9.  In a run whose synchronous part completes (state [s1], before any
    response): all five requests have been handed to the HTTP client, every
    slot shows its cache entry if there is one and what it showed before
    otherwise, and the loading flag is already cleared if any entry was
    found.  Then, in whatever order the requests settle: a source that fails
    keeps its slot and its cache entry as they were in [s1] and its failure
    is logged (a failed records request also leaves the filter state and the
    ref alone); a source that succeeds gets its slot and its cache entry
    replaced by the response, whichever of the others fail; no request is
    withdrawn; and the run ends with the loading flag cleared. *)
Theorem failures_are_isolated (f : FilterState) (order : list source)
    (net : source -> outcome) (s s1 : state) (p : pass) :
  fetchData_sync f (setIsLoading true s) = (s1, Some p) ->
  let s2 := settle_all p order net s1 in
  (forall src,
     net src = Rejected ->
     slot src s2 = slot src s1
     /\ cache_entry (cacheKey p) src s2 = cache_entry (cacheKey p) src s1
     /\ (src ∈ order ->
         error_message src ∈ console s2 /\ failure_message src ∈ console s2))
  /\ (net Records = Rejected ->
      filters s2 = filters s1
      /\ isInitialDateSynchronized s2 = isInitialDateSynchronized s1)
  /\ (forall src data,
        net src = Resolved data -> src ∈ order ->
        slot src s2 = data /\ cache_entry (cacheKey p) src s2 = Some data)
  /\ requests s2
     = (requests s ++ [getEmployees ∅; getAttendanceTrends; getLateStatistics;
                       getOntimeStatistics;
                       recordsRequest f (default None (dateParam f))])%list
  /\ isLoading (runEffect f order net s) = false
  /\ (cacheHit (cacheKey p) s = true -> isLoading s1 = false)
  /\ (forall src,
        slot src s1 = default (slot src s) (cache_entry (cacheKey p) src s)).
Proof.
  intros Hsync s2. unfold runEffect. rewrite Hsync.
  apply fetchData_sync_inv in Hsync
    as (dp & Hdp & -> & Hreq & _ & _ & _ & Hload & Hslots & Hrecords).
  pose proof (passKey_records_key f dp) as Hkey. cbn [cacheKey] in *.
  set (p := mkPass f (passKey f dp)) in *.
  assert (Hk : records_key (cacheKey p)) by exact Hkey.
  repeat split.
  - now apply settle_all_rejected.
  - now apply settle_all_rejected.
  - now apply settle_all_logged.
  - now apply settle_all_logged.
  - now apply settle_all_filters.
  - now apply settle_all_filters.
  - eapply settle_all_resolved; eauto.
  - eapply settle_all_resolved; eauto.
  - subst s2. rewrite settle_all_requests, Hreq, Hdp. reflexivity.
  - intros Hhit. rewrite Hload. change (cacheHit (passKey f dp) (setIsLoading true s))
      with (cacheHit (passKey f dp) s). now rewrite Hhit.
  - intros [].
    all: try (rewrite Hslots by discriminate; reflexivity).
    exact Hrecords.
Qed.

(** A run on a browser that has the roster cached: the roster and the two
    statistics requests fail, the trend and the records requests succeed,
    and the responses arrive in the reverse of the order of issue. *)
Lemma failures_are_isolated_run :
  let f := mkFilters "all" "all" "all" "all" None in
  let roster := JArray [OEmployee (mkEmployee "Male" "Sales" (VNumber (of_N 12)))] in
  let s := initial_state utc {["employeeData" := roster]} ∅ in
  let net := fun src =>
    match src with
    | Trends => Resolved (JArray [OTrend (mkTrend "Jan" (of_N 90) (of_N 6) (of_N 10))])
    | Records => Resolved (JArray [])
    | _ => Rejected
    end in
  let order := [Records; OnTimeStats; LateStats; Trends; Employees] in
  exists s1 p,
    fetchData_sync f (setIsLoading true s) = (s1, Some p)
    /\ isLoading s1 = false
    /\ employeeData s1 = roster
    /\ employeeData (settle_all p order net s1) = roster
    /\ localStorage (settle_all p order net s1) !! "employeeData" = Some roster
    /\ isLoading (runEffect f order net s) = false.
Proof.
  cbv zeta.
  set (f := mkFilters "all" "all" "all" "all" None).
  set (roster := JArray [OEmployee (mkEmployee "Male" "Sales" (VNumber (of_N 12)))]).
  set (s := initial_state utc {["employeeData" := roster]} ∅).
  set (net := fun src : source => match src with
                | Trends => _ | Records => _ | _ => Rejected end).
  set (order := [Records; OnTimeStats; LateStats; Trends; Employees]).
  assert (exists s1, fetchData_sync f (setIsLoading true s)
                     = (s1, Some (mkPass f (passKey f None)))) as [s1 Hsync]
    by (eexists; vm_compute; reflexivity).
  exists s1, (mkPass f (passKey f None)). split; [exact Hsync|].
  pose proof (failures_are_isolated f order net s s1 _ Hsync) as H.
  cbv zeta in H. destruct H as (Hrej & _ & _ & _ & Hend & Hhit & Hshown).
  destruct (Hrej Employees eq_refl) as (Hslot & Hcache & _).
  assert (Hcached : cacheHit (cacheKey (mkPass f (passKey f None))) s = true)
    by (vm_compute; reflexivity).
  assert (Hroster : slot Employees s1 = roster)
    by (rewrite (Hshown Employees); vm_compute; reflexivity).
  split; [exact (Hhit Hcached)|]. split; [exact Hroster|].
  split; [exact (eq_trans Hslot Hroster)|].
  split; [|exact Hend].
  cbn [cache_entry] in Hcache. rewrite Hcache.
  apply fetchData_sync_inv in Hsync as (_ & _ & _ & _ & -> & _).
  vm_compute. reflexivity.
Defined.

(* ===================================================================== *)
(** ** Late arrivals and the paging of the grid *)
(* ===================================================================== *)

(** X1.  A check-in with a minute count below 60 is late exactly when it falls
    after 9:00 on the clock; 9:00 itself is not late. *)
Theorem isLate_after_nine (h m : Z) :
  (0 <= m < 60)%Z ->
  MockData.isLate h m = true <-> (540 < 60 * h + m)%Z.
Proof.
  intros Hm. unfold MockData.isLate. cbn [MockData.hour MockData.minute MockData.standardCheckInTime].
  destruct (Z.ltb_spec 9 h); [split; [lia|reflexivity]|].
  destruct (Z.eqb_spec h 9); destruct (Z.ltb_spec 0 m); cbn [andb];
    split; intros; try discriminate; try reflexivity; lia.
Qed.

(** 9:01 is late. *)
Lemma isLate_nine_oh_one : MockData.isLate 9 1 = true <-> (540 < 60 * 9 + 1)%Z.
Proof. apply (isLate_after_nine 9 1). lia. Defined.

Section Paging.
Import EmployeeAttendanceGrid.
Local Open Scope Z_scope.

Lemma totalPages_div {A} (data : list A) :
  totalPages data = (Z.of_nat (length data) + 5) / 6.
Proof.
  unfold totalPages, itemsPerPage, Qceiling, Qfloor. cbn.
  rewrite Z.mul_1_r. generalize (Z.of_nat (length data)). intros n.
  Z.div_mod_to_equations. lia.
Qed.

Lemma slice_forward {A} (start stop : Z) (arr : list A) :
  0 <= start <= stop ->
  slice start stop arr
  = take (Z.to_nat (stop - start)) (drop (Z.to_nat start) arr).
Proof.
  intros H. unfold slice.
  destruct (Z.ltb_spec start 0), (Z.ltb_spec stop 0); try lia.
  set (len := Z.of_nat (length arr)).
  destruct (Z.le_gt_cases len start) as [Hge|Hlt].
  - rewrite !drop_ge by (subst len; lia). now rewrite !take_nil.
  - rewrite (Z.min_l start len) by lia.
    destruct (Z.le_gt_cases stop len) as [Hs|Hs].
    + now rewrite (Z.min_l stop len) by lia.
    + rewrite (Z.min_r stop len) by lia.
      rewrite !take_ge; [reflexivity| |]; rewrite length_drop; subst len; lia.
Qed.

Lemma currentItems_forward {A} (data : list A) (p : Z) :
  1 <= p ->
  currentItems data p = take 6 (drop (Z.to_nat (6 * (p - 1))) data).
Proof.
  intros Hp. unfold currentItems, itemsPerPage.
  rewrite slice_forward by lia. f_equal; [lia|f_equal; lia].
Qed.

(** X2.  Paging loses nothing and repeats nothing: the record at position [k] of
    page [p] is the record at index [6 (p - 1) + k] of the data; a page holds
    at most six records; and page [p] shows something exactly when [p] is at
    most [totalPages], so a page number left over from a longer result shows
    an empty grid. *)
Theorem pages_partition_the_data {A : Type} (data : list A) :
  (forall p (k : nat),
     1 <= p -> (k < 6)%nat ->
     currentItems data p !! k = data !! (Z.to_nat (6 * (p - 1)) + k)%nat)
  /\ (forall p, (length (currentItems data p) <= 6)%nat)
  /\ (forall p, 1 <= p -> (currentItems data p <> [] <-> p <= totalPages data))
  /\ (totalPages data = 0 <-> data = []).
Proof.
  split; [|split; [|split]].
  - intros p k Hp Hk. rewrite currentItems_forward by exact Hp.
    rewrite lookup_take_lt by lia. apply lookup_drop.
  - intros p. unfold currentItems, slice, itemsPerPage.
    rewrite length_take.
    destruct (Z.ltb_spec (p * 6 - 6) 0), (Z.ltb_spec (p * 6) 0); lia.
  - intros p Hp. rewrite currentItems_forward by exact Hp.
    rewrite totalPages_div.
    assert (Hlen : forall l : list A, l <> [] <-> (0 < length l)%nat)
      by (intros []; cbn; split; (congruence || lia)).
    rewrite Hlen, length_take, length_drop.
    generalize (length data). intros n.
    split; intros H; [|assert (6 * (p - 1) < Z.of_nat n)
                         by (Z.div_mod_to_equations; lia); lia].
    assert (6 * (p - 1) < Z.of_nat n) by lia.
    Z.div_mod_to_equations. lia.
  - rewrite totalPages_div. destruct data as [|x data]; cbn [length].
    + split; reflexivity.
    + split; [|discriminate]. Z.div_mod_to_equations. lia.
Qed.

Ltac range_cases :=
  unfold pageRange, pageRange_search, previousPage, nextPage;
  change (Qfloor (inject_Z 5 / 2)) with 2; cbv zeta;
  repeat match goal with
    | |- context [(?a <? ?b)] => destruct (Z.ltb_spec a b)
    | |- context [(?a =? ?b)] => destruct (Z.eqb_spec a b)
    end; cbn [fst snd].

Lemma pageRange_bounds (currentPage total : Z) :
  1 <= currentPage <= total ->
  1 <= fst (pageRange currentPage total) <= currentPage
  /\ currentPage <= snd (pageRange currentPage total) <= total
  /\ snd (pageRange currentPage total) - fst (pageRange currentPage total) + 1
     = Z.min 5 total.
Proof. intros H. range_cases; lia. Qed.

(** X3.  For a current page within [1, totalPages]: the run of page links starts
    at least at 1, ends at most at [totalPages], contains the current page
    and has exactly five links, or [totalPages] if there are fewer pages; the
    Previous and Next buttons lead to a page of the same interval. *)
Theorem page_range_is_a_window (currentPage total : Z) :
  1 <= currentPage <= total ->
  let range := pageRange currentPage total in
  1 <= fst range <= currentPage
  /\ currentPage <= snd range <= total
  /\ snd range - fst range + 1 = Z.min 5 total
  /\ 1 <= previousPage currentPage <= currentPage
  /\ currentPage <= nextPage currentPage total <= total.
Proof. intros H. cbv zeta. range_cases; lia. Qed.

(** Page 3 of 10. *)
Lemma page_range_3_of_10 :
  let range := pageRange 3 10 in
  1 <= fst range <= 3
  /\ 3 <= snd range <= 10
  /\ snd range - fst range + 1 = Z.min 5 10
  /\ 1 <= previousPage 3 <= 3
  /\ 3 <= nextPage 3 10 <= 10.
Proof. apply (page_range_is_a_window 3 10). lia. Defined.

(** X4.  The two versions of the component kept in the file compute the same
    run of page links whenever the current page is an existing page. *)
Theorem page_range_versions_agree (currentPage total : Z) :
  1 <= currentPage <= total ->
  pageRange_search currentPage total = pageRange currentPage total.
Proof. intros H. range_cases; f_equal; lia. Qed.

(** Page 9 of 10, where both versions move the start back. *)
Lemma page_range_versions_agree_9_of_10 :
  pageRange_search 9 10 = pageRange 9 10.
Proof. apply (page_range_versions_agree 9 10). lia. Defined.

Lemma seqZ_sorted (m n : Z) : StronglySorted Z.lt (seqZ m n).
Proof.
  destruct (Z.le_gt_cases n 0) as [Hn|Hn]; [rewrite seqZ_nil by lia; constructor|].
  rewrite <- (Z2Nat.id n) by lia. generalize (Z.to_nat n). intros k.
  induction k as [|k IH]; [rewrite seqZ_nil by lia; constructor|].
  rewrite seqZ_S. apply StronglySorted_app_2; [|exact IH|repeat constructor].
  intros x y Hx Hy. apply elem_of_seqZ in Hx. apply list_elem_of_singleton in Hy. lia.
Qed.

Lemma linked_pages_render (currentPage total : Z) :
  linked_pages (renderPaginationItems currentPage total)
  = ((if 1 <? fst (pageRange currentPage total) then [1] else [])
     ++ seqZ (fst (pageRange currentPage total))
          (snd (pageRange currentPage total) - fst (pageRange currentPage total) + 1)
     ++ (if snd (pageRange currentPage total) <? total then [total] else []))%list.
Proof.
  unfold renderPaginationItems, linked_pages.
  destruct (pageRange currentPage total) as [s e]. cbn [fst snd].
  assert (Hmid : omap (fun it => match it with
                                 | PaginationLink page _ => Some page
                                 | PaginationEllipsis _ => None
                                 end)
                   (map (fun i => PaginationLink i (currentPage =? i)) (seqZ s (e - s + 1)))
                 = seqZ s (e - s + 1)).
  { induction (seqZ s (e - s + 1)) as [|x l IH]; [reflexivity|]. cbn. now rewrite IH. }
  destruct (1 <? s), (2 <? s), (e <? total), (e <? total - 1);
    cbn [app omap list_omap]; rewrite ?omap_app, ?Hmid; cbn [app omap list_omap];
    rewrite ?app_nil_r; reflexivity.
Qed.

Lemma elem_of_map {A B} (f : A -> B) (l : list A) (y : B) :
  y ∈ map f l <-> exists x, y = f x /\ x ∈ l.
Proof.
  rewrite list_elem_of_In, in_map_iff. setoid_rewrite list_elem_of_In.
  split; intros (x & H1 & H2); eauto.
Qed.

Ltac render_cases tot :=
  unfold renderPaginationItems;
  destruct (pageRange _ _) as [s0 e0]; cbn [fst snd];
  destruct (Z.ltb_spec 1 s0), (Z.ltb_spec 2 s0), (Z.ltb_spec e0 tot),
    (Z.ltb_spec e0 (tot - 1));
  cbn [app];
  repeat first [rewrite elem_of_app | rewrite elem_of_cons
               | rewrite elem_of_map | rewrite elem_of_nil].

Lemma render_active (currentPage total page : Z) (active : bool) :
  PaginationLink page active ∈ renderPaginationItems currentPage total ->
  active = (currentPage =? page).
Proof.
  render_cases total; intros Hin;
    repeat match goal with
      | H : _ \/ _ |- _ => destruct H
      | H : exists _, _ |- _ => destruct H as (? & ? & ?)
      | H : False |- _ => destruct H
      | H : PaginationLink _ _ = PaginationLink _ _ |- _ => injection H as ? ?; subst
      end; try discriminate; try reflexivity; try contradiction.
Qed.

Lemma render_ellipsis_start (currentPage total : Z) :
  PaginationEllipsis "ellipsis-start" ∈ renderPaginationItems currentPage total
  <-> 2 < fst (pageRange currentPage total).
Proof.
  render_cases total; split; intros Hin; try lia;
    repeat match goal with
      | H : _ \/ _ |- _ => destruct H
      | H : exists _, _ |- _ => destruct H as (? & ? & ?)
      | H : False |- _ => destruct H
      end; try discriminate; try contradiction; auto.
Qed.

Lemma render_ellipsis_end (currentPage total : Z) :
  PaginationEllipsis "ellipsis-end" ∈ renderPaginationItems currentPage total
  <-> snd (pageRange currentPage total) < total - 1.
Proof.
  render_cases total; split; intros Hin; try lia;
    repeat match goal with
      | H : _ \/ _ |- _ => destruct H
      | H : exists _, _ |- _ => destruct H as (? & ? & ?)
      | H : False |- _ => destruct H
      end; try discriminate; try contradiction; auto 7.
Qed.

(** X5.  The pagination bar, for a current page within [1, totalPages]: the
    linked page numbers are strictly increasing (so no key repeats), they
    start with page 1, end with the last page and include the current page;
    a link is marked active exactly when it is the current page; and the
    leading (trailing) ellipsis is shown exactly when page 2 (the page before
    the last) has no link of its own. *)
Theorem pagination_bar (currentPage total : Z) :
  1 <= currentPage <= total ->
  let items := renderPaginationItems currentPage total in
  StronglySorted Z.lt (linked_pages items)
  /\ head (linked_pages items) = Some 1
  /\ last (linked_pages items) = Some total
  /\ currentPage ∈ linked_pages items
  /\ (forall page active,
        PaginationLink page active ∈ items -> active = (currentPage =? page))
  /\ (PaginationEllipsis "ellipsis-start" ∈ items
      <-> 2 <= total /\ 2 ∉ linked_pages items)
  /\ (PaginationEllipsis "ellipsis-end" ∈ items
      <-> 2 <= total /\ total - 1 ∉ linked_pages items).
Proof.
  intros H items. subst items.
  destruct (pageRange_bounds currentPage total H) as (Hs & He & Hsize).
  rewrite render_ellipsis_start, render_ellipsis_end, linked_pages_render.
  pose proof (render_active currentPage total) as Hactive.
  generalize dependent (snd (pageRange currentPage total)). intros e.
  generalize dependent (fst (pageRange currentPage total)). intros s.
  intros Hs He Hsize.
  assert (Hseq : seqZ s (e - s + 1) = s :: seqZ (Z.succ s) (Z.pred (e - s + 1)))
    by (apply seqZ_cons; lia).
  assert (Hlast : last (seqZ s (e - s + 1)) = Some e).
  { replace (e - s + 1) with (Z.of_nat (S (Z.to_nat (e - s)))) by lia.
    rewrite seqZ_S, last_snoc. f_equal. lia. }
  split; [|split; [|split; [|split; [|split; [|split]]]]].
  - apply StronglySorted_app_2; [| |apply StronglySorted_app_2].
    + intros x y Hx Hy. destruct (Z.ltb_spec 1 s); [|now apply elem_of_nil in Hx].
      apply list_elem_of_singleton in Hx. apply elem_of_app in Hy as [Hy|Hy].
      * apply elem_of_seqZ in Hy. lia.
      * destruct (Z.ltb_spec e total); [|now apply elem_of_nil in Hy].
        apply list_elem_of_singleton in Hy. lia.
    + destruct (1 <? s); repeat constructor.
    + intros x y Hx Hy. apply elem_of_seqZ in Hx.
      destruct (Z.ltb_spec e total); [|now apply elem_of_nil in Hy].
      apply list_elem_of_singleton in Hy. lia.
    + apply seqZ_sorted.
    + destruct (e <? total); repeat constructor.
  - destruct (Z.ltb_spec 1 s); [reflexivity|]. rewrite Hseq.
    cbn [app head]. f_equal. lia.
  - rewrite app_assoc. destruct (Z.ltb_spec e total).
    + apply last_snoc.
    + rewrite app_nil_r, last_app, Hlast. f_equal. lia.
  - rewrite !elem_of_app, elem_of_seqZ. right. left. lia.
  - exact Hactive.
  - rewrite !elem_of_app, elem_of_seqZ.
    destruct (Z.ltb_spec 1 s), (Z.ltb_spec e total);
      rewrite ?list_elem_of_singleton, ?elem_of_nil; lia.
  - rewrite !elem_of_app, elem_of_seqZ.
    destruct (Z.ltb_spec 1 s), (Z.ltb_spec e total);
      rewrite ?list_elem_of_singleton, ?elem_of_nil; lia.
Qed.

(** Page 5 of 10: links 1, 3 to 7 and 10, an ellipsis on either side. *)
Lemma pagination_bar_5_of_10 :
  let items := renderPaginationItems 5 10 in
  StronglySorted Z.lt (linked_pages items)
  /\ head (linked_pages items) = Some 1
  /\ last (linked_pages items) = Some 10
  /\ 5 ∈ linked_pages items
  /\ (forall page active,
        PaginationLink page active ∈ items -> active = (5 =? page))
  /\ (PaginationEllipsis "ellipsis-start" ∈ items
      <-> 2 <= 10 /\ 2 ∉ linked_pages items)
  /\ (PaginationEllipsis "ellipsis-end" ∈ items
      <-> 2 <= 10 /\ 10 - 1 ∉ linked_pages items).
Proof. apply (pagination_bar 5 10). lia. Defined.

End Paging.

(* ===================================================================== *)
(** ** Runs of the effect: dates, hydration and the caches *)
(* ===================================================================== *)

(** The hydration of the four fixed entries leaves everything but the four
    slots alone. *)
Lemma hydrate_fixed_frame (s : state) :
  let sh :=
    hydrate (sessionStorage s !! "onTimeStatistics") setOnTimeStatistics
      (hydrate (sessionStorage s !! "lateStatistics") setLateStatistics
         (hydrate (sessionStorage s !! "attendanceTrendData") setAttendanceTrendData
            (hydrate (localStorage s !! "employeeData") setEmployeeData (s, false)))) in
  filters (fst sh) = filters s
  /\ isInitialDateSynchronized (fst sh) = isInitialDateSynchronized s
  /\ isLoading (fst sh) = isLoading s
  /\ attendanceRecords (fst sh) = attendanceRecords s
  /\ localStorage (fst sh) = localStorage s
  /\ sessionStorage (fst sh) = sessionStorage s
  /\ requests (fst sh) = requests s
  /\ console (fst sh) = console s.
Proof.
  unfold hydrate.
  destruct (localStorage s !! "employeeData"), (sessionStorage s !! "attendanceTrendData"),
    (sessionStorage s !! "lateStatistics"), (sessionStorage s !! "onTimeStatistics");
    cbn; repeat split.
Qed.

(** Nor does it change the host. *)
Lemma hydrate_fixed_host (s : state) :
  host (fst (hydrate (sessionStorage s !! "onTimeStatistics") setOnTimeStatistics
               (hydrate (sessionStorage s !! "lateStatistics") setLateStatistics
                  (hydrate (sessionStorage s !! "attendanceTrendData")
                     setAttendanceTrendData
                     (hydrate (localStorage s !! "employeeData") setEmployeeData
                        (s, false))))))
  = host s.
Proof.
  unfold hydrate.
  destruct (localStorage s !! "employeeData"), (sessionStorage s !! "attendanceTrendData"),
    (sessionStorage s !! "lateStatistics"), (sessionStorage s !! "onTimeStatistics");
    reflexivity.
Qed.

(** X6.  When the date filter holds an invalid [Date], a run stops at the
    formatting of the date: whatever the stores hold and however the network
    would answer, no request is issued, the loading flag stays raised, and
    neither store, the console nor the filter state changes. *)
Theorem invalid_date_blocks_the_run (f : FilterState) (order : list source)
    (net : source -> outcome) (s : state) :
  date f = Some InvalidDate ->
  let s' := runEffect f order net s in
  requests s' = requests s
  /\ isLoading s' = true
  /\ localStorage s' = localStorage s
  /\ sessionStorage s' = sessionStorage s
  /\ console s' = console s
  /\ filters s' = filters s.
Proof.
  intros Hd. unfold runEffect, fetchData_sync, dateParam. rewrite Hd.
  cbn [format_yyyy_MM_dd].
  destruct (hydrate_fixed_frame (setIsLoading true s))
    as (Hf & _ & Hl & _ & Hls & Hss & Hr & Hc).
  cbv zeta. rewrite Hf, Hl, Hls, Hss, Hr, Hc. repeat split.
Qed.

(** The date filter holds the [Date] built from an unparsable string. *)
Lemma invalid_date_blocks_first_run :
  let f := mkFilters "all" "all" "all" "all" (Some (new_Date utc "n/a")) in
  let s := setFilters (fun _ => f) (initial_state utc ∅ ∅) in
  let s' := runEffect f all_sources (fun _ => Resolved (JArray [])) s in
  requests s' = []
  /\ isLoading s' = true
  /\ localStorage s' = ∅
  /\ sessionStorage s' = ∅
  /\ console s' = []
  /\ filters s' = f.
Proof.
  exact (invalid_date_blocks_the_run
           (mkFilters "all" "all" "all" "all" (Some (new_Date utc "n/a")))
           all_sources (fun _ => Resolved (JArray []))
           (setFilters (fun _ => mkFilters "all" "all" "all" "all" (Some (new_Date utc "n/a")))
              (initial_state utc ∅ ∅))
           eq_refl).
Defined.

(** What the synchronous part does to the filter state and the ref, for
    either way it ends: nothing, unless the ref is unset, no date filter is
    captured and the records entry of the run is a non-empty array whose
    first record has a date. *)
Lemma fetchData_sync_filters f s :
  let s1 := fst (fetchData_sync f s) in
  (filters s1 = filters s
   /\ isInitialDateSynchronized s1 = isInitialDateSynchronized s)
  \/ (isInitialDateSynchronized s = false /\ date f = None
      /\ exists o rest d,
           sessionStorage s !! passKey f None = Some (JArray (o :: rest))
           /\ date_of o = Some d /\ string_truthy d = true
           /\ filters s1 = with_date (Some (new_Date (host s) d)) (filters s)
           /\ isInitialDateSynchronized s1 = true).
Proof.
  unfold fetchData_sync, passKey.
  destruct (hydrate_fixed_frame s) as (Hf & Hflag & _).
  pose proof (hydrate_fixed_host s) as Hhost.
  cbv zeta in Hf, Hflag |- *.
  set (sh := hydrate _ _ (hydrate _ _ (hydrate _ _ (hydrate _ _ (s, false))))) in *.
  destruct (dateParam f) as [dp|] eqn:Hdp; [|left; now split].
  destruct (travelBounds (travelDistance f)) as [travelMin travelMax].
  cbn [fst snd].
  destruct (sessionStorage s !! attendanceCacheKey dp _ _ _ _ _) as [r|] eqn:Hr.
  2: { destruct (snd sh); left; cbn; now split. }
  unfold shouldSync. state_simpl. rewrite Hflag.
  destruct (isInitialDateSynchronized s) eqn:Hsynced.
  { cbn [negb andb]. left. cbn. now split. }
  destruct (date f) as [d|] eqn:Hd.
  { cbn. left. cbn. now split. }
  unfold dateParam in Hdp. rewrite Hd in Hdp. injection Hdp as <-.
  cbn [negb andb bool_decide decide_rel].
  destruct r as [| |[|o rest]]; cbn; try (left; cbn; now split).
  destruct (date_of o) as [d|] eqn:Ho; cbn; [|left; cbn; now split].
  destruct (string_truthy d) eqn:Htruthy; cbn; [|left; cbn; now split].
  right. split; [reflexivity|]. split; [reflexivity|].
  exists o, rest, d. rewrite Ho. cbn. rewrite Hf, Hhost. repeat split; assumption.
Qed.

(** X7.  With a valid date in the filter state a run always gets through its
    synchronous part: for every component state it issues exactly the five
    requests, in the order roster, trends, late statistics, on-time
    statistics, records, and it writes to neither store, logs nothing and
    leaves the filter state and the ref as they were. *)
Theorem dated_run_issues_five_requests (f : FilterState) (s : state)
    (d : Date) (dp : string) :
  date f = Some d ->
  format_yyyy_MM_dd d = Some dp ->
  exists s1,
    fetchData_sync f s = (s1, Some (mkPass f (passKey f (Some dp))))
    /\ requests s1
       = (requests s ++ [getEmployees ∅; getAttendanceTrends; getLateStatistics;
                         getOntimeStatistics; recordsRequest f (Some dp)])%list
    /\ params (recordsRequest f (Some dp)) !! "date_filter"
       = (if string_truthy dp then Some (PString dp) else None)
    /\ localStorage s1 = localStorage s
    /\ sessionStorage s1 = sessionStorage s
    /\ console s1 = console s
    /\ filters s1 = filters s
    /\ isInitialDateSynchronized s1 = isInitialDateSynchronized s.
Proof.
  intros Hd Hfmt.
  destruct (fetchData_sync_dated f s d dp Hd Hfmt) as [s1 Hsync].
  exists s1. split; [exact Hsync|].
  pose proof (fetchData_sync_filters f s) as Hfilters. cbv zeta in Hfilters.
  rewrite Hsync in Hfilters. cbn [fst] in Hfilters.
  apply fetchData_sync_inv in Hsync as (dp' & Hdp & _ & Hreq & Hl & Hs & Hc & _).
  unfold dateParam in Hdp. rewrite Hd, Hfmt in Hdp. injection Hdp as <-.
  split; [exact Hreq|]. split.
  { unfold recordsRequest, getAllAttendanceRecords. cbn [params].
    repeat match goal with
      | |- context [match ?x with Some _ => _ | None => _ end] => destruct x
      | |- context [if ?b then _ else _] => destruct b
      end;
      rewrite ?lookup_insert_ne by discriminate;
      rewrite ?lookup_insert_eq, ?lookup_empty; reflexivity. }
  split; [exact Hl|]. split; [exact Hs|]. split; [exact Hc|].
  destruct Hfilters as [[Hf Hflag]|(_ & Hnone & _)]; [now split|congruence].
Qed.

(** 1 March 2024 on a freshly mounted component. *)
Lemma dated_run_first_of_march :
  let f := mkFilters "all" "all" "all" "all" (Some (Day 2024 3 1)) in
  let s := initial_state utc ∅ ∅ in
  exists s1,
    fetchData_sync f s = (s1, Some (mkPass f (passKey f (Some "2024-03-01"))))
    /\ requests s1
       = (requests s ++ [getEmployees ∅; getAttendanceTrends; getLateStatistics;
                         getOntimeStatistics; recordsRequest f (Some "2024-03-01")])%list
    /\ params (recordsRequest f (Some "2024-03-01")) !! "date_filter"
       = (if string_truthy "2024-03-01" then Some (PString "2024-03-01") else None)
    /\ localStorage s1 = localStorage s
    /\ sessionStorage s1 = sessionStorage s
    /\ console s1 = console s
    /\ filters s1 = filters s
    /\ isInitialDateSynchronized s1 = isInitialDateSynchronized s.
Proof.
  exact (dated_run_issues_five_requests
           (mkFilters "all" "all" "all" "all" (Some (Day 2024 3 1)))
           (initial_state utc ∅ ∅) (Day 2024 3 1) "2024-03-01" eq_refl eq_refl).
Defined.

(** X8.  Hydration from a cached record set: when the ref is unset, no date
    filter is captured and the records entry of the run is a non-empty array
    whose first record is dated [y-m-d], the synchronous part shows the
    cached records, sets the ref and clears the loading flag, and it moves
    the date filter to the local calendar day of UTC midnight of [y-m-d]:
    that day where local time is at or ahead of UTC, the day before it where
    local time is behind.  The records request of this very run still goes
    out without a date. *)
Theorem cached_records_set_the_date (f : FilterState) (s : state)
    (o : jsobject) (rest : list jsobject) (y m d : N) :
  date f = None ->
  isInitialDateSynchronized s = false ->
  sessionStorage s !! passKey f None = Some (JArray (o :: rest)) ->
  (y < 10000)%N -> (1 <= m <= 12)%N -> (1 <= d <= days_in_month (Z.of_N y) m)%N ->
  date_of o = Some (iso_date y m d) ->
  exists s1,
    fetchData_sync f s = (s1, Some (mkPass f (passKey f None)))
    /\ attendanceRecords s1 = JArray (o :: rest)
    /\ ((0 <= LocalTZA (host s) (Z.of_N y) m d < msPerDay)%Z ->
        date (filters s1) = Some (Day (Z.of_N y) m d))
    /\ ((- msPerDay <= LocalTZA (host s) (Z.of_N y) m d < 0)%Z ->
        date (filters s1)
        = Some (if (1 <? d)%N then Day (Z.of_N y) m (d - 1)
                else if (1 <? m)%N
                     then Day (Z.of_N y) (m - 1) (days_in_month (Z.of_N y) (m - 1))
                     else Day (Z.of_N y - 1) 12 31))
    /\ isInitialDateSynchronized s1 = true
    /\ isLoading s1 = false
    /\ last (requests s1) = Some (recordsRequest f None)
    /\ params (recordsRequest f None) !! "date_filter" = None.
Proof.
  intros Hd Hflag Hcached Hy Hm Hday Ho.
  pose proof (iso_date_truthy y m d) as Htruthy.
  assert (Hdirect : date (filters (fst (fetchData_sync f s)))
                    = Some (local_day (host s) (Z.of_N y) m d)
                    /\ isInitialDateSynchronized (fst (fetchData_sync f s)) = true).
  { rewrite <- (new_Date_iso (host s) y m d Hy Hm Hday).
    generalize dependent (iso_date y m d). intros iso Ho Htruthy.
    unfold fetchData_sync, dateParam. unfold passKey in Hcached. rewrite Hd.
    destruct (hydrate_fixed_frame s) as (_ & Hsame & _).
    pose proof (hydrate_fixed_host s) as Hhost. cbv zeta in Hsame |- *.
    set (sh := hydrate _ _ (hydrate _ _ (hydrate _ _ (hydrate _ _ (s, false))))) in *.
    destruct (travelBounds (travelDistance f)) as [travelMin travelMax].
    cbn [fst snd] in Hcached |- *. rewrite Hcached.
    unfold shouldSync. state_simpl. rewrite Hsame, Hflag, Hd.
    cbn [negb andb bool_decide decide_rel length_of length first_date].
    rewrite Ho. cbn. rewrite Htruthy. cbn. rewrite Ho, Hhost. now split. }
  destruct (fetchData_sync_undated f s Hd) as [s1 Hsync]; [congruence|].
  rewrite Hsync in Hdirect. cbn [fst] in Hdirect. destruct Hdirect as [Hdate Hsynced].
  exists s1. split; [exact Hsync|].
  apply fetchData_sync_inv in Hsync
    as (dp & Hdp & _ & Hreq & _ & _ & _ & Hload & _ & Hrecords).
  unfold dateParam in Hdp. rewrite Hd in Hdp. injection Hdp as <-.
  rewrite Hcached in Hrecords.
  split; [exact Hrecords|]. split.
  { intros Hoff. now rewrite Hdate, local_day_east. }
  split.
  { intros Hoff. rewrite Hdate, local_day_west by exact Hoff. unfold previous_day.
    destruct (1 <? d)%N; [reflexivity|]. now destruct (1 <? m)%N. }
  split; [exact Hsynced|]. split.
  { rewrite Hload. unfold cacheHit. cbn [existsb all_sources cache_entry].
    rewrite Hcached. cbn. now rewrite !orb_true_r. }
  split; [rewrite Hreq; apply last_of_five|].
  unfold recordsRequest, getAllAttendanceRecords. cbn [params].
  repeat match goal with
    | |- context [match ?x with Some _ => _ | None => _ end] => destruct x
    | |- context [if ?b then _ else _] => destruct b
    end;
    rewrite ?lookup_insert_ne by discriminate; apply lookup_empty.
Qed.

(** A browser session at UTC that has the default query cached, and the
    same session five hours behind UTC. *)
Lemma cached_records_set_the_date_run :
  let f := mkFilters "all" "all" "all" "all" None in
  let r := ORecord (mkRecord 1 "Asha" (Some "2024-03-01") "OnTime") in
  let cache : gmap string json :=
    {["attendanceRecords_latest_all_all_all_any_any" := JArray [r]]} in
  (exists s1,
     fetchData_sync f (initial_state utc ∅ cache) = (s1, Some (mkPass f (passKey f None)))
     /\ attendanceRecords s1 = JArray [r]
     /\ date (filters s1) = Some (Day 2024 3 1)
     /\ isInitialDateSynchronized s1 = true
     /\ isLoading s1 = false
     /\ last (requests s1) = Some (recordsRequest f None))
  /\ (exists s1,
        fetchData_sync f (initial_state (zone (-18000000)) ∅ cache)
        = (s1, Some (mkPass f (passKey f None)))
        /\ date (filters s1) = Some (Day 2024 2 29)).
Proof.
  cbv zeta. split.
  - destruct (cached_records_set_the_date
                (mkFilters "all" "all" "all" "all" None)
                (initial_state utc ∅
                   {["attendanceRecords_latest_all_all_all_any_any" :=
                       JArray [ORecord (mkRecord 1 "Asha" (Some "2024-03-01") "OnTime")]]})
                (ORecord (mkRecord 1 "Asha" (Some "2024-03-01") "OnTime")) []
                2024 3 1)
      as (s1 & H1 & H2 & Heast & _ & H3 & H4 & H5 & _);
      [ reflexivity | reflexivity | vm_compute; reflexivity | reflexivity
      | split; discriminate | split; discriminate | reflexivity | ].
    exists s1. repeat split; try assumption.
    apply Heast. split; [discriminate | reflexivity].
  - destruct (cached_records_set_the_date
                (mkFilters "all" "all" "all" "all" None)
                (initial_state (zone (-18000000)) ∅
                   {["attendanceRecords_latest_all_all_all_any_any" :=
                       JArray [ORecord (mkRecord 1 "Asha" (Some "2024-03-01") "OnTime")]]})
                (ORecord (mkRecord 1 "Asha" (Some "2024-03-01") "OnTime")) []
                2024 3 1)
      as (s1 & H1 & _ & _ & Hwest & _);
      [ reflexivity | reflexivity | vm_compute; reflexivity | reflexivity
      | split; discriminate | split; discriminate | reflexivity | ].
    exists s1. split; [exact H1|].
    apply Hwest. split; [discriminate | reflexivity].
Defined.

Lemma settle_synced p src o s :
  isInitialDateSynchronized s = true ->
  (src = Records -> o = Rejected \/ exists data, o = Resolved data /\ nonempty data) ->
  filters (settle p src o s) = filters s
  /\ isInitialDateSynchronized (settle p src o s) = true.
Proof.
  intros Hflag Hrec.
  destruct (decide (src = Records)) as [->|Hne].
  - destruct (Hrec eq_refl) as [->|(data & -> & Hdata)].
    + cbn [settle]; state_simpl. now split.
    + cbn [settle onResolved]. now apply onRecords_synced.
  - destruct (settle_filters p src o s) as [Hf Hs]; [now left|].
    rewrite Hf, Hs. now split.
Qed.

(** X9.  Once the ref is set, a whole run leaves the date filter alone: whatever
    the filters, the stores and the settle order are, if the records request
    fails or answers with a non-empty array, the filter state after the run
    is the one before it and the ref is still set. *)
Theorem synced_run_keeps_the_filters (f : FilterState) (order : list source)
    (net : source -> outcome) (s : state) :
  isInitialDateSynchronized s = true ->
  (net Records = Rejected \/ exists data, net Records = Resolved data /\ nonempty data) ->
  filters (runEffect f order net s) = filters s
  /\ isInitialDateSynchronized (runEffect f order net s) = true.
Proof.
  intros Hflag Hrec. unfold runEffect.
  pose proof (fetchData_sync_filters f (setIsLoading true s)) as Hsync.
  cbv zeta in Hsync. state_simpl.
  destruct Hsync as [[Hf Hs]|(Hno & _)]; [|congruence].
  destruct (fetchData_sync f (setIsLoading true s)) as [s1 [p|]];
    cbn [fst] in Hf, Hs; [|rewrite Hf, Hs; now split].
  state_simpl. rewrite Hflag in Hs. rewrite <- Hf. clear Hf.
  induction order as [|x order IH] using rev_ind; [now split|].
  rewrite settle_all_snoc. destruct IH as [IHf IHs].
  destruct (settle_synced p x (net x) (settle_all p order net s1) IHs) as [Hf' Hs'].
  { intros ->. exact Hrec. }
  rewrite Hf', IHf. now split.
Qed.

(** A synchronised dashboard on which the user cleared the date: the
    records answer is not empty, and the date stays cleared. *)
Lemma synced_run_keeps_cleared_date :
  let f := mkFilters "all" "all" "all" "all" None in
  let s := setSynchronized true (initial_state utc ∅ ∅) in
  let net := fun src : source =>
    match src with
    | Records => Resolved (JArray [ORecord (mkRecord 1 "Asha" (Some "2024-03-04") "Late")])
    | _ => Rejected
    end in
  filters (runEffect f all_sources net s) = filters s
  /\ isInitialDateSynchronized (runEffect f all_sources net s) = true.
Proof.
  apply (synced_run_keeps_the_filters
           (mkFilters "all" "all" "all" "all" None) all_sources
           (fun src : source =>
              match src with
              | Records =>
                  Resolved (JArray [ORecord (mkRecord 1 "Asha" (Some "2024-03-04") "Late")])
              | _ => Rejected
              end)
           (setSynchronized true (initial_state utc ∅ ∅)));
    [reflexivity | right; eexists; split; [reflexivity | exact I]].
Defined.

(** X10.  The caches carry a response over to later runs: if a source answered
    in one run, then in any later run with the same filter values, started
    from any component state that sees the stores as that run left them
    (the same component, or a freshly mounted one), the slot of that source
    shows the earlier response as soon as the synchronous part is over, the
    loading flag is cleared at that point, and the slot still shows the
    response at the end when the source fails this time. *)
Theorem cached_response_survives_failure (f : FilterState)
    (order order' : list source) (net net' : source -> outcome)
    (s s1 s0 s1' : state) (p p' : pass) (src : source) (data : json) :
  fetchData_sync f (setIsLoading true s) = (s1, Some p) ->
  net src = Resolved data ->
  src ∈ order ->
  localStorage s0 = localStorage (runEffect f order net s) ->
  sessionStorage s0 = sessionStorage (runEffect f order net s) ->
  fetchData_sync f (setIsLoading true s0) = (s1', Some p') ->
  net' src = Rejected ->
  slot src s1' = data
  /\ isLoading s1' = false
  /\ slot src (runEffect f order' net' s0) = data.
Proof.
  intros Hsync Hres Hin Hlocal Hsession Hsync' Hrej.
  unfold runEffect in Hlocal, Hsession |- *. rewrite Hsync in Hlocal, Hsession.
  rewrite Hsync'. state_simpl.
  apply fetchData_sync_inv in Hsync as (dp & Hdp & -> & _).
  apply fetchData_sync_inv in Hsync'
    as (dp' & Hdp' & -> & _ & _ & _ & _ & Hload & Hslots & Hrecords).
  assert (dp' = dp) as -> by congruence.
  pose proof (passKey_records_key f dp) as Hkey.
  set (p := mkPass f (passKey f dp)) in *.
  destruct (settle_all_resolved p Hkey net src data order s1 Hres Hin) as [_ Hc].
  assert (Hentry : cache_entry (passKey f dp) src (setIsLoading true s0) = Some data).
  { rewrite <- Hc. destruct src; cbn [cache_entry cacheKey p]; state_simpl;
      rewrite ?Hlocal, ?Hsession; reflexivity. }
  assert (Hshown : slot src s1' = data).
  { destruct (decide (src = Records)) as [->|Hne].
    - cbn [slot cache_entry] in Hentry |- *. now rewrite Hrecords, Hentry.
    - now rewrite (Hslots src Hne), Hentry. }
  split; [exact Hshown|]. split.
  - rewrite Hload. unfold cacheHit. cbn [existsb all_sources].
    destruct src; rewrite Hentry; cbn; now rewrite ?orb_true_r.
  - destruct (settle_all_rejected p Hkey net' src order' s1' Hrej) as [Hslot _].
    transitivity (slot src (settle_all p order' net' s1')); [now destruct src|].
    now rewrite Hslot.
Qed.

(** The roster is fetched once; on a reload of the page every request
    fails. *)
Lemma cached_roster_survives_reload :
  let f := mkFilters "all" "all" "all" "all" None in
  let roster := JArray [OEmployee (mkEmployee "Male" "Sales" (VNumber (of_N 12)))] in
  let net := fun src : source =>
    match src with Employees => Resolved roster | _ => Rejected end in
  let net' := fun _ : source => Rejected in
  let s' := runEffect f all_sources net (initial_state utc ∅ ∅) in
  let s0 := initial_state utc (localStorage s') (sessionStorage s') in
  exists s1',
    fetchData_sync f (setIsLoading true s0) = (s1', Some (mkPass f (passKey f None)))
    /\ slot Employees s1' = roster
    /\ isLoading s1' = false
    /\ slot Employees (runEffect f all_sources net' s0) = roster.
Proof.
  cbv zeta.
  set (f := mkFilters "all" "all" "all" "all" None).
  set (roster := JArray [OEmployee (mkEmployee "Male" "Sales" (VNumber (of_N 12)))]).
  set (net := fun src : source => match src with Employees => _ | _ => Rejected end).
  set (s' := runEffect f all_sources net (initial_state utc ∅ ∅)).
  assert (exists s1, fetchData_sync f (setIsLoading true (initial_state utc ∅ ∅))
                     = (s1, Some (mkPass f (passKey f None)))) as [s1 Hsync]
    by (eexists; vm_compute; reflexivity).
  assert (exists s1', fetchData_sync f
                        (setIsLoading true
                           (initial_state utc (localStorage s') (sessionStorage s')))
                      = (s1', Some (mkPass f (passKey f None)))) as [s1' Hsync']
    by (eexists; vm_compute; reflexivity).
  exists s1'. split; [exact Hsync'|].
  exact (cached_response_survives_failure f all_sources all_sources
           net (fun _ => Rejected)
           (initial_state utc ∅ ∅) s1
           (initial_state utc (localStorage s') (sessionStorage s')) s1'
           (mkPass f (passKey f None)) (mkPass f (passKey f None)) Employees roster
           Hsync eq_refl (list_elem_of_here _ _) eq_refl eq_refl Hsync' eq_refl).
Defined.

(** X11.  A [null] records payload is not guarded.  When it arrives while the
    ref is unset and no date filter is captured, the handler shows it,
    caches it under the key of the run and then throws, which is logged as a
    failed fetch.  And a run that finds [null] cached under its key, with the
    ref unset and no date filter, stops while reading the entry: it issues no
    request and leaves the loading flag raised. *)
Theorem null_records_block_the_next_run :
  (forall p s,
     date (captured p) = None ->
     isInitialDateSynchronized s = false ->
     let s' := settle p Records (Resolved JNull) s in
     attendanceRecords s' = JNull
     /\ sessionStorage s' !! cacheKey p = Some JNull
     /\ console s' = (console s ++ [failure_message Records])%list
     /\ isInitialDateSynchronized s' = false
     /\ filters s' = filters s)
  /\ (forall f order net s,
        date f = None ->
        isInitialDateSynchronized s = false ->
        sessionStorage s !! passKey f None = Some JNull ->
        let s' := runEffect f order net s in
        requests s' = requests s
        /\ isLoading s' = true
        /\ attendanceRecords s' = JNull).
Proof.
  split.
  - intros p s Hd Hflag. cbn [settle onResolved]. unfold onRecords, shouldSync.
    state_simpl. rewrite Hflag, Hd. cbn. rewrite lookup_insert_eq. repeat split.
    exact Hflag.
  - intros f order net s Hd Hflag Hnull. unfold runEffect, fetchData_sync, dateParam.
    unfold passKey in Hnull. rewrite Hd.
    destruct (hydrate_fixed_frame (setIsLoading true s))
      as (_ & Hsame & Hl & _ & _ & _ & Hr & _).
    cbv zeta in Hsame, Hl, Hr |- *.
    set (sh := hydrate _ _ (hydrate _ _ (hydrate _ _ (hydrate _ _ _)))) in *.
    destruct (travelBounds (travelDistance f)) as [travelMin travelMax].
    cbn [fst snd] in Hnull |- *. state_simpl. rewrite Hnull.
    unfold shouldSync. state_simpl. rewrite Hsame, Hflag, Hd. cbn.
    rewrite Hr, Hl. repeat split.
Qed.

(** The default query answers [null] on a fresh mount; the effect then runs
    again for the same filters. *)
Lemma null_records_block_the_next_run_example :
  let f := mkFilters "all" "all" "all" "all" None in
  let net := fun src : source =>
    match src with Records => Resolved JNull | _ => Rejected end in
  let s1 := runEffect f all_sources net (initial_state utc ∅ ∅) in
  let s2 := runEffect f all_sources net s1 in
  sessionStorage s1 !! passKey f None = Some JNull
  /\ requests s2 = requests s1
  /\ isLoading s2 = true
  /\ attendanceRecords s2 = JNull.
Proof.
  cbv zeta.
  set (f := mkFilters "all" "all" "all" "all" None).
  set (net := fun src : source => match src with Records => _ | _ => Rejected end).
  set (s1 := runEffect f all_sources net (initial_state utc ∅ ∅)).
  assert (Hnull : sessionStorage s1 !! passKey f None = Some JNull)
    by (vm_compute; reflexivity).
  split; [exact Hnull|].
  assert (Hflag : isInitialDateSynchronized s1 = false) by (vm_compute; reflexivity).
  exact (proj2 null_records_block_the_next_run f all_sources net s1 eq_refl Hflag Hnull).
Defined.

(* ===================================================================== *)
(** ** The parameters of the records request *)
(* ===================================================================== *)

(** X12.  What [getAllAttendanceRecords] puts in the query string: a travel bound
    whenever one is given, so the bounds 0 and [NaN] are sent; the date when
    it is a non-empty string; the gender when it is a non-empty string other
    than [all] in any letter case; nothing under any other name, and nothing
    that depends on arguments beyond the fourth. *)
Theorem records_request_parameters (dateFilter genderFilter : option string)
    (travelDistanceMin travelDistanceMax : option number) (surplus : list primitive) :
  let r := getAllAttendanceRecords dateFilter genderFilter
             travelDistanceMin travelDistanceMax surplus in
  path r = "/attendance/records"
  /\ params r !! "travelDistanceMin" = PNumber <$> travelDistanceMin
  /\ params r !! "travelDistanceMax" = PNumber <$> travelDistanceMax
  /\ (forall d, params r !! "date_filter" = Some (PString d)
                <-> dateFilter = Some d /\ d <> "")
  /\ (forall g, params r !! "gender_filter" = Some (PString g)
                <-> genderFilter = Some g /\ g <> "" /\ toLowerCase g <> "all")
  /\ (forall k v, params r !! k = Some v ->
        k = "date_filter" \/ k = "gender_filter"
        \/ k = "travelDistanceMin" \/ k = "travelDistanceMax")
  /\ r = getAllAttendanceRecords dateFilter genderFilter
           travelDistanceMin travelDistanceMax [].
Proof.
  cbv zeta. unfold getAllAttendanceRecords. cbn [path params].
  assert (Htruthy : forall t, string_truthy t = true <-> t <> "")
    by (intros []; cbn; split; congruence).
  split; [reflexivity|]. split; [|split; [|split; [|split; [|split; [|reflexivity]]]]].
  - destruct dateFilter as [[|c d]|], genderFilter as [g|], travelDistanceMin,
      travelDistanceMax; cbn [string_truthy andb fmap option_fmap option_map];
      repeat match goal with |- context [if ?b then _ else _] => destruct b end;
      rewrite ?lookup_insert_ne by discriminate;
      rewrite ?lookup_insert_eq, ?lookup_empty; reflexivity.
  - destruct dateFilter as [[|c d]|], genderFilter as [g|], travelDistanceMin,
      travelDistanceMax; cbn [string_truthy andb fmap option_fmap option_map];
      repeat match goal with |- context [if ?b then _ else _] => destruct b end;
      rewrite ?lookup_insert_ne by discriminate;
      rewrite ?lookup_insert_eq, ?lookup_empty; reflexivity.
  - intros d0.
    destruct dateFilter as [[|c d]|], genderFilter as [g|], travelDistanceMin,
      travelDistanceMax; cbn [string_truthy andb];
      repeat match goal with |- context [if ?b then _ else _] => destruct b end;
      rewrite ?lookup_insert_ne by discriminate;
      rewrite ?lookup_insert_eq, ?lookup_empty;
      split; intros H; try discriminate; try (destruct H; congruence);
      try (injection H as <-; split; congruence).
  - intros g0.
    destruct dateFilter as [[|c d]|], genderFilter as [g|], travelDistanceMin,
      travelDistanceMax; cbn [string_truthy];
      try (destruct (string_truthy g && negb (toLowerCase g =? "all")%string) eqn:E;
           [apply andb_prop in E as [E1 E2]; apply Htruthy in E1;
            apply negb_true_iff, String.eqb_neq in E2
           |apply andb_false_iff in E as [E|E];
            [apply not_true_iff_false in E; rewrite Htruthy in E
            |apply negb_false_iff, String.eqb_eq in E]]);
      rewrite ?lookup_insert_ne by discriminate;
      rewrite ?lookup_insert_eq, ?lookup_empty;
      split; intros H; try discriminate;
      try (injection H as <-; repeat split; assumption);
      try (destruct H as (H & H1 & H2); injection H as ->; try reflexivity;
           try contradiction; exfalso; auto);
      try (destruct H as (H & _); discriminate).
  - intros k v.
    destruct (decide (k = "date_filter")) as [->|H1]; [auto|].
    destruct (decide (k = "gender_filter")) as [->|H2]; [auto|].
    destruct (decide (k = "travelDistanceMin")) as [->|H3]; [auto|].
    destruct (decide (k = "travelDistanceMax")) as [->|H4]; [auto 6|].
    repeat match goal with
      | |- context [match ?x with Some _ => _ | None => _ end] => destruct x
      | |- context [if ?b then _ else _] => destruct b
      end;
      rewrite ?lookup_insert_ne by congruence; rewrite lookup_empty; discriminate.
Qed.

(* ===================================================================== *)
(** ** Department counts, histogram totals and the roster filter *)
(* ===================================================================== *)

Section Counters.

Lemma counter_get_set_eq k n o : counter_get k (counter_set k n o) = Some n.
Proof.
  unfold counter_get. induction o as [|[k' m] o IH]; cbn.
  - now rewrite String.eqb_refl.
  - destruct (String.eqb k' k) eqn:E; cbn; rewrite E; [reflexivity|exact IH].
Qed.

Lemma counter_get_set_ne k k' n o :
  k' <> k -> counter_get k' (counter_set k n o) = counter_get k' o.
Proof.
  intros Hne. unfold counter_get. induction o as [|[k0 m] o IH]; cbn.
  - apply String.eqb_neq in Hne. rewrite String.eqb_sym in Hne. now rewrite Hne.
  - destruct (String.eqb k0 k) eqn:E; cbn.
    + apply String.eqb_eq in E. subst k0.
      apply String.eqb_neq in Hne. rewrite String.eqb_sym in Hne. now rewrite Hne.
    + destruct (String.eqb k0 k'); [reflexivity|exact IH].
Qed.

Lemma counter_get_keys k o : is_Some (counter_get k o) <-> k ∈ map fst o.
Proof.
  unfold counter_get. induction o as [|[k0 m] o IH]; cbn.
  - split; [intros [? ?]; discriminate|intros H; now apply elem_of_nil in H].
  - rewrite elem_of_cons. destruct (String.eqb k0 k) eqn:E; cbn.
    + apply String.eqb_eq in E. split; eauto.
    + apply String.eqb_neq in E. rewrite IH. split; [auto|intros [?|?]; congruence].
Qed.

Lemma counter_set_keys k n o :
  map fst (counter_set k n o)
  = if bool_decide (k ∈ map fst o) then map fst o else (map fst o ++ [k])%list.
Proof.
  induction o as [|[k0 m] o IH]; cbn; [reflexivity|].
  destruct (String.eqb k0 k) eqn:E.
  - apply String.eqb_eq in E. subst k0. cbn.
    rewrite bool_decide_eq_true_2 by apply list_elem_of_here. reflexivity.
  - apply String.eqb_neq in E. cbn. rewrite IH.
    destruct (bool_decide (k ∈ map fst o)) eqn:Hin.
    + apply bool_decide_eq_true in Hin.
      rewrite bool_decide_eq_true_2 by (apply list_elem_of_further; exact Hin). reflexivity.
    + apply bool_decide_eq_false in Hin.
      rewrite bool_decide_eq_false_2; [reflexivity|].
      rewrite elem_of_cons. intros [?|?]; congruence.
Qed.

Lemma counter_set_total k n o :
  sum_list (map snd (counter_set k n o))
  = (sum_list (map snd o) - default 0 (counter_get k o) + n)%nat.
Proof.
  unfold counter_get. induction o as [|[k0 m] o IH]; cbn; [lia|].
  destruct (String.eqb k0 k) eqn:E; cbn; [lia|]. rewrite IH.
  assert (default 0 (snd <$> find (fun kv => String.eqb kv.1 k) o) <= sum_list (map snd o))%nat.
  { clear. induction o as [|[k1 m1] o IH]; cbn; [lia|].
    destruct (String.eqb k1 k); cbn; lia. }
  lia.
Qed.

Lemma counter_entries_nodup o :
  NoDup (map fst o) ->
  counter_entries o = map (fun kv => mkNameValue (fst kv) (snd kv)) o.
Proof.
  unfold counter_entries. intros Hnd.
  rewrite map_map. apply map_ext_in. intros [k v] Hin. cbn. f_equal.
  unfold counter_get. induction o as [|[k0 m] o IH]; [contradiction|].
  cbn in Hnd. apply NoDup_cons in Hnd as [Hk0 Hnd]. cbn.
  destruct Hin as [Heq|Hin].
  - injection Heq as -> ->. now rewrite String.eqb_refl.
  - destruct (String.eqb k0 k) eqn:E; [|now apply IH].
    apply String.eqb_eq in E. subst k0. exfalso. apply Hk0.
    apply list_elem_of_In. now apply (in_map fst) in Hin.
Qed.

Lemma deptCount_snoc roster emp :
  deptCount (roster ++ [emp])
  = counter_set (emp_department emp)
      (default 0%nat (counter_get (emp_department emp) (deptCount roster)) + 1)%nat
      (deptCount roster).
Proof. unfold deptCount. now rewrite fold_left_app. Qed.

Lemma count_department_snoc d roster emp :
  count_department d (roster ++ [emp])
  = (count_department d roster + if String.eqb (emp_department emp) d then 1 else 0)%nat.
Proof.
  unfold count_department. rewrite List.filter_app, length_app. cbn.
  now destruct (String.eqb (emp_department emp) d).
Qed.

Lemma deptCount_invariant roster :
  NoDup (map fst (deptCount roster))
  /\ (forall d, counter_get d (deptCount roster)
                = if Nat.eqb (count_department d roster) 0 then None
                  else Some (count_department d roster))
  /\ sum_list (map snd (deptCount roster)) = length roster.
Proof.
  induction roster as [|emp roster (Hnd & Hget & Hsum)] using rev_ind.
  - split; [constructor|split; [intros d; reflexivity|reflexivity]].
  - rewrite deptCount_snoc. set (k := emp_department emp). split; [|split].
    + rewrite counter_set_keys. case_bool_decide as Hin; [exact Hnd|].
      apply NoDup_app. repeat split; [exact Hnd| |apply NoDup_singleton].
      intros x Hx Hx'. apply list_elem_of_singleton in Hx'. congruence.
    + intros d. rewrite count_department_snoc. fold k.
      destruct (String.eqb k d) eqn:E.
      * apply String.eqb_eq in E. subst d. rewrite counter_get_set_eq, Hget.
        destruct (count_department k roster) eqn:Hc; cbn; [reflexivity|].
        rewrite Nat.add_1_r.
        replace (n + 1 =? 0)%nat with false by (symmetry; apply Nat.eqb_neq; lia).
        f_equal.
      * apply String.eqb_neq in E. rewrite counter_get_set_ne by congruence.
        rewrite Hget, Nat.add_0_r. reflexivity.
    + rewrite counter_set_total, Hsum, length_app. cbn.
      assert (default 0 (counter_get k (deptCount roster)) <= length roster)%nat; [|lia].
      rewrite Hget. destruct (Nat.eqb_spec (count_department k roster) 0); cbn; [lia|].
      unfold count_department. apply filter_length_le.
Qed.

End Counters.

Lemma getDepartmentData_entries roster :
  getDepartmentData roster
  = map (fun kv => mkNameValue (fst kv) (snd kv)) (deptCount roster).
Proof.
  change (getDepartmentData roster) with (counter_entries (deptCount roster)).
  apply counter_entries_nodup, deptCount_invariant.
Qed.

(** X13.  For a roster whose department names are capitalised names: the
    department chart has one entry per department that occurs in the roster
    and no other; an entry's value is the number of employees of
    that department, so the values add up to the size of the roster; and
    the entries stand in the order in which the departments first occur: a
    further employee adds an entry at the end if the department is new and
    none otherwise. *)
Theorem department_distribution (roster : list EmployeeRecord) :
  Forall (fun emp => capitalised (emp_department emp) = true) roster ->
  let out := getDepartmentData roster in
  NoDup (map name out)
  /\ (forall d, d ∈ map name out <-> exists emp, emp ∈ roster /\ emp_department emp = d)
  /\ (forall entry, entry ∈ out ->
        value entry = count_department (name entry) roster /\ (1 <= value entry)%nat)
  /\ sum_list (map value out) = length roster
  /\ (forall emp,
        capitalised (emp_department emp) = true ->
        map name (getDepartmentData (roster ++ [emp]))
        = if bool_decide (emp_department emp ∈ map name out) then map name out
          else (map name out ++ [emp_department emp])%list).
Proof.
  intros _. cbv zeta. destruct (deptCount_invariant roster) as (Hnd & Hget & Hsum).
  assert (Hnames : forall l, map name (getDepartmentData l) = map fst (deptCount l)).
  { intros l. rewrite getDepartmentData_entries, map_map. reflexivity. }
  assert (Hcount : forall d, d ∈ map fst (deptCount roster)
                             <-> count_department d roster <> 0%nat).
  { intros d. rewrite <- counter_get_keys, Hget.
    destruct (Nat.eqb_spec (count_department d roster) 0) as [->|Hne].
    - split; [intros [? ?]; discriminate|congruence].
    - split; [auto|eauto]. }
  split; [now rewrite Hnames|]. split; [|split; [|split]].
  - intros d. rewrite Hnames, Hcount. unfold count_department. split.
    + intros Hne. destruct (List.filter _ roster) as [|emp l] eqn:Hf; [contradiction|].
      assert (Hin : In emp (List.filter (fun emp => String.eqb (emp_department emp) d) roster))
        by (rewrite Hf; now left).
      apply List.filter_In in Hin as [Hin Hd]. apply String.eqb_eq in Hd.
      exists emp. split; [now apply list_elem_of_In|exact Hd].
    + intros (emp & Hin & Hd) Hzero. apply list_elem_of_In in Hin.
      assert (Hin' : In emp (List.filter (fun emp => String.eqb (emp_department emp) d) roster)).
      { apply List.filter_In. split; [exact Hin|now apply String.eqb_eq]. }
      destruct (List.filter _ roster); [contradiction|discriminate].
  - intros entry Hin. rewrite getDepartmentData_entries in Hin.
    apply list_elem_of_In, in_map_iff in Hin as ([k v] & <- & Hin). cbn [name value fst snd].
    assert (Hk : counter_get k (deptCount roster) = Some v).
    { clear -Hin Hnd. unfold counter_get.
      induction (deptCount roster) as [|[k0 m] o IH]; [contradiction|].
      cbn in Hnd. apply NoDup_cons in Hnd as [Hk0 Hnd]. cbn.
      destruct Hin as [Heq|Hin].
      - injection Heq as -> ->. now rewrite String.eqb_refl.
      - destruct (String.eqb k0 k) eqn:E; [|now apply IH].
        apply String.eqb_eq in E. subst k0. exfalso. apply Hk0.
        apply list_elem_of_In. now apply (in_map fst) in Hin. }
    rewrite Hget in Hk.
    destruct (Nat.eqb_spec (count_department k roster) 0); [discriminate|].
    injection Hk as <-. split; [reflexivity|lia].
  - rewrite getDepartmentData_entries, map_map. cbn [value]. exact Hsum.
  - intros emp _. rewrite !Hnames, deptCount_snoc. apply counter_set_keys.
Qed.

(** Two engineers and a salesperson between them. *)
Lemma department_distribution_example :
  let roster := [mkEmployee "Male" "Engineering" (VNumber (of_N 3));
                 mkEmployee "Female" "Sales" VNull;
                 mkEmployee "Female" "Engineering" (VNumber (of_N 12))] in
  getDepartmentData roster = [mkNameValue "Engineering" 2; mkNameValue "Sales" 1]
  /\ sum_list (map value (getDepartmentData roster)) = length roster.
Proof.
  split; [reflexivity|].
  exact (proj1 (proj2 (proj2 (proj2
           (department_distribution
              [mkEmployee "Male" "Engineering" (VNumber (of_N 3));
               mkEmployee "Female" "Sales" VNull;
               mkEmployee "Female" "Engineering" (VNumber (of_N 12))]
              ltac:(repeat constructor)))))).
Defined.

Lemma alter_increment_total i (l : list TravelRange) :
  (i < length l)%nat ->
  sum_list (map count (alter increment i l)) = S (sum_list (map count l)).
Proof.
  revert i. induction l as [|r l IH]; intros [|i] Hi; cbn in *; try lia.
  rewrite IH by lia. lia.
Qed.

Lemma getTravelData_length roster : length (getTravelData roster) = 5%nat.
Proof.
  rewrite <- (length_map range), getTravelData_ranges. reflexivity.
Qed.

(** X14.  Every employee with a travel distance other than undefined and null is
    counted in exactly one bar of the histogram, so the counts add up to the
    number of such employees; in particular a distance that is not a number
    at all is counted, and it is counted in the bar 20+. *)
Theorem travel_histogram_total :
  (forall roster,
     sum_list (map count (getTravelData roster)) = length (List.filter has_distance roster))
  /\ (forall roster emp,
        has_distance emp = true ->
        ToNumber (emp_travelKm emp) = NaN ->
        getTravelData (roster ++ [emp]) = alter increment 4%nat (getTravelData roster)).
Proof.
  split.
  - induction roster as [|emp roster IH] using rev_ind; [reflexivity|].
    rewrite getTravelData_snoc, List.filter_app, length_app, <- IH. cbn [List.filter].
    pose proof (getTravelData_length roster) as Hlen.
    unfold countTravel, has_distance.
    destruct (emp_travelKm emp); cbn [length]; rewrite ?Nat.add_0_r; try reflexivity;
      repeat match goal with |- context [if ?b then _ else _] => destruct b end;
      rewrite alter_increment_total by lia; lia.
  - intros roster emp Hhas Hnan. rewrite getTravelData_snoc.
    unfold countTravel, has_distance in *. rewrite Hnan.
    destruct (emp_travelKm emp); try discriminate; reflexivity.
Qed.

(* ===================================================================== *)
(** ** The roster filter *)
(* ===================================================================== *)

Lemma trimStart_digits s : all_digits s = true -> trimStart s = s.
Proof.
  destruct s as [|c s]; [reflexivity|]. cbn [all_digits trimStart]. intros H.
  apply andb_prop in H as [Hc _]. now destruct (digit_cases c Hc) as (-> & _).
Qed.

Lemma trimEnd_digits s : all_digits s = true -> trimEnd s = s.
Proof.
  induction s as [|c s IH]; [reflexivity|]. cbn [all_digits trimEnd]. intros H.
  apply andb_prop in H as [Hc Hs]. rewrite (IH Hs).
  destruct (digit_cases c Hc) as (-> & _). now destruct s.
Qed.

Lemma Number_of_string_decimal n : Number_of_string (decimal n) = of_N n.
Proof.
  unfold Number_of_string, trim.
  rewrite trimStart_digits, trimEnd_digits by apply decimal_all_digits.
  pose proof (read_decimal_decimal n) as Hr.
  destruct (decimal_head n) as (c & s & Hs & Hc). rewrite Hs in *.
  destruct (digit_cases c Hc) as (_ & Hminus & Hplus & HI & _).
  assert (Hsign : read_sign (String c s) = (false, String c s)).
  { unfold read_sign. destruct c as [[] [] [] [] [] [] [] []]; try reflexivity;
      discriminate. }
  rewrite Hsign. cbn [String.eqb]. rewrite HI, Hr. reflexivity.
Qed.

(** The effect as one filter, for any filter state. *)
Lemma filterEmployees_filter f :
  exists keep : EmployeeRecord -> bool,
    forall roster, filterEmployees f roster = List.filter keep roster.
Proof.
  unfold filterEmployees.
  set (g := fun emp => String.eqb (emp_gender emp) (gender f)).
  set (d := fun emp => String.eqb (emp_department emp) (department f)).
  set (t := fun emp : EmployeeRecord => number_ge _ _ && number_le _ _).
  exists (fun emp => (if negb (String.eqb (gender f) "all") then g emp else true)
                     && (if negb (String.eqb (department f) "all") then d emp else true)
                     && (if negb (String.eqb (travelDistance f) "all") then t emp else true)).
  intros roster. destruct roster as [|emp roster]; [reflexivity|].
  generalize (emp :: roster). intros l. cbv zeta. fold t.
  destruct (negb (String.eqb (gender f) "all")),
    (negb (String.eqb (department f) "all")),
    (negb (String.eqb (travelDistance f) "all"));
    rewrite ?filter_twice;
    first [ symmetry; apply filter_true
          | apply List.filter_ext; intros e; cbn [andb];
            now destruct (g e), (d e), (t e) ].
Qed.

(** X15.  The roster filter is a selection: it keeps employees in their order,
    so filtering the parts of a roster and joining them is filtering the
    whole, and filtering twice changes nothing more; with every filter on
    [all] it keeps everyone. *)
Theorem roster_filter_is_a_selection (f : FilterState) :
  (forall l1 l2,
     filterEmployees f (l1 ++ l2) = (filterEmployees f l1 ++ filterEmployees f l2)%list)
  /\ (forall roster, filterEmployees f (filterEmployees f roster) = filterEmployees f roster)
  /\ (forall roster, sublist (filterEmployees f roster) roster)
  /\ (gender f = "all" -> department f = "all" -> travelDistance f = "all" ->
      forall roster, filterEmployees f roster = roster).
Proof.
  destruct (filterEmployees_filter f) as [keep Hkeep].
  split; [|split; [|split]].
  - intros l1 l2. rewrite !Hkeep. apply List.filter_app.
  - intros roster. rewrite !Hkeep.
    induction roster as [|emp roster IH]; [reflexivity|]. cbn [List.filter].
    destruct (keep emp) eqn:E; [cbn [List.filter]; rewrite E; now f_equal|exact IH].
  - intros roster. rewrite Hkeep.
    induction roster as [|emp roster IH]; [constructor|]. cbn [List.filter].
    destruct (keep emp); now constructor.
  - intros Hg Hd Ht roster. unfold filterEmployees. rewrite Hg, Ht, Hd.
    now destruct roster.
Qed.

Lemma filterEmployees_bucket f a b roster :
  travelDistance f = bucket a b ->
  filterEmployees f roster = List.filter (keeps f (of_N a) (of_N b)) roster.
Proof.
  intros Hbucket. unfold filterEmployees. destruct roster as [|emp roster]; [reflexivity|].
  rewrite Hbucket. unfold bucket.
  destruct (decimal_head a) as (c & s & Ha & Hc).
  destruct (digit_cases c Hc) as (_ & _ & _ & _ & Hall & _).
  assert (Hne : String.eqb (decimal a +:+ "-" +:+ decimal b) "all" = false).
  { rewrite Ha, append_cons. cbn [String.eqb]. now rewrite Hall. }
  rewrite Hne.
  change ("-" +:+ decimal b) with (String "-" (decimal b)).
  rewrite split_digits by apply decimal_all_digits.
  rewrite split_digits_only by apply decimal_all_digits.
  cbn [map lookup list_lookup]. rewrite !Number_of_string_decimal.
  cbn [negb default from_option id].
  cbv zeta. generalize (emp :: roster). intros l.
  destruct (String.eqb (gender f) "all") eqn:Hg;
    destruct (String.eqb (department f) "all") eqn:Hd; cbn [negb];
    rewrite ?filter_twice; apply List.filter_ext; intros e; unfold keeps;
    rewrite Hg, Hd; cbn [orb andb]; rewrite ?andb_true_r, ?andb_assoc; reflexivity.
Qed.

(** X16.  With a bucket [a-b] selected (bounds a binary64 holds exactly) the
    filtered roster holds exactly the employees that pass the gender and
    department tests and whose distance, read as a number, lies in
    [a, b], both ends included.  An employee whose distance is undefined is
    never kept; one whose distance is null is read as 0 km and kept exactly
    by the buckets that start at 0. *)
Theorem roster_filter_by_bucket (f : FilterState) (a b : N)
    (roster : list EmployeeRecord) :
  (a < 10 ^ 15)%N -> (b < 10 ^ 15)%N ->
  travelDistance f = bucket a b ->
  (forall emp,
     In emp (filterEmployees f roster) <->
     In emp roster /\ selected f emp
     /\ number_le (of_N a) (ToNumber (emp_travelKm emp)) = true
     /\ number_le (ToNumber (emp_travelKm emp)) (of_N b) = true)
  /\ (forall emp (q : Q),
        emp_travelKm emp = VNumber (Fin q) ->
        In emp (filterEmployees f roster) <->
        In emp roster /\ selected f emp
        /\ (inject_Z (Z.of_N a) <= q <= inject_Z (Z.of_N b))%Q)
  /\ (forall emp, emp_travelKm emp = VUndefined -> ~ In emp (filterEmployees f roster))
  /\ (forall emp,
        emp_travelKm emp = VNull ->
        In emp (filterEmployees f roster) <-> In emp roster /\ selected f emp /\ a = 0%N).
Proof.
  intros _ _ Hbucket.
  assert (Hin : forall emp,
            In emp (filterEmployees f roster) <->
            In emp roster /\ selected f emp
            /\ number_le (of_N a) (ToNumber (emp_travelKm emp)) = true
            /\ number_le (ToNumber (emp_travelKm emp)) (of_N b) = true).
  { intros emp. rewrite (filterEmployees_bucket f a b roster Hbucket).
    rewrite List.filter_In. unfold keeps, number_ge, selected.
    rewrite !andb_true_iff, !orb_true_iff, !String.eqb_eq. tauto. }
  split; [exact Hin|]. split; [|split].
  - intros emp q Hkm. rewrite Hin, Hkm. cbn [ToNumber number_le of_N].
    rewrite !Qle_bool_iff. tauto.
  - intros emp Hkm H. apply Hin in H as (_ & _ & H & _).
    rewrite Hkm in H. discriminate.
  - intros emp Hkm. rewrite Hin, Hkm. cbn [ToNumber number_le of_N].
    rewrite !Qle_bool_iff.
    assert (Ha : (inject_Z (Z.of_N a) <= 0)%Q <-> a = 0%N).
    { unfold Qle. cbn. lia. }
    assert (Hb : (0 <= inject_Z (Z.of_N b))%Q) by (unfold Qle; cbn; lia).
    rewrite Ha. tauto.
Qed.

(** The bucket 0-5 and three employees: no distance recorded (null), the
    field missing altogether, and 3 km.  The one without the field is not
    kept. *)
Lemma roster_filter_by_bucket_0_5 :
  let f := mkFilters "all" "all" "0-5" "all" None in
  let unknown := mkEmployee "Male" "Sales" VNull in
  let missing := mkEmployee "Male" "Sales" VUndefined in
  let near := mkEmployee "Female" "Finance" (VNumber (of_N 3)) in
  filterEmployees f [unknown; missing; near] = [unknown; near]
  /\ ~ In missing (filterEmployees f [unknown; missing; near]).
Proof.
  split; [reflexivity|].
  apply (proj1 (proj2 (proj2
           (roster_filter_by_bucket
              (mkFilters "all" "all" "0-5" "all" None) 0 5
              [mkEmployee "Male" "Sales" VNull; mkEmployee "Male" "Sales" VUndefined;
               mkEmployee "Female" "Finance" (VNumber (of_N 3))]
              ltac:(reflexivity) ltac:(reflexivity) ltac:(reflexivity))))).
  reflexivity.
Defined.

(* ===================================================================== *)
(** ** Cache keys of the selections the UI offers *)
(* ===================================================================== *)

Section CacheKeys.

Lemma no_underscore_split s1 s2 r1 r2 :
  no_underscore s1 = true -> no_underscore s2 = true ->
  s1 +:+ String "_" r1 = s2 +:+ String "_" r2 -> s1 = s2 /\ r1 = r2.
Proof.
  revert s2. induction s1 as [|c s1 IH]; intros [|c2 s2] H1 H2;
    rewrite ?append_nil_l, ?append_cons; intros H.
  - now injection H as ->.
  - injection H as <- _. discriminate H2.
  - injection H as -> _. discriminate H1.
  - injection H as -> H. cbn [no_underscore] in H1, H2.
    apply andb_prop in H1 as [_ H1]. apply andb_prop in H2 as [_ H2].
    destruct (IH s2 H1 H2 H) as [-> ->]. now split.
Qed.

Lemma no_underscore_app s t :
  no_underscore (s +:+ t) = no_underscore s && no_underscore t.
Proof.
  induction s as [|c s IH]; [reflexivity|].
  rewrite append_cons. cbn [no_underscore]. now rewrite IH, andb_assoc.
Qed.

Lemma digits_no_underscore s : all_digits s = true -> no_underscore s = true.
Proof.
  induction s as [|c s IH]; [reflexivity|]. cbn [all_digits no_underscore].
  intros H. apply andb_prop in H as [Hc Hs]. rewrite (IH Hs), andb_true_r.
  destruct c as [[] [] [] [] [] [] [] []]; try reflexivity; discriminate Hc.
Qed.

(** The date part of the key has no underscore and tells a date from its
    absence. *)
Lemma dateParam_part f dp :
  dateParam f = Some dp ->
  no_underscore (string_or dp "latest") = true
  /\ (dp = None /\ string_or dp "latest" = "latest"
      \/ exists c s, dp = Some (String c s) /\ string_or dp "latest" = String c s
                     /\ is_digit c = true).
Proof.
  unfold dateParam. destruct (date f) as [[|y m d]|]; cbn [format_yyyy_MM_dd];
    intros H; try discriminate H; injection H as <-.
  - cbv zeta. generalize (Z.to_N (if (0 <? y)%Z then y else (1 - y)%Z)). clear y.
    intros y. cbn [string_or]. destruct (pad_head 4 y) as (c & s & Hs & Hc).
    rewrite Hs, !append_cons. cbn [string_truthy]. rewrite <- append_cons, <- Hs.
    split.
    + repeat first
        [ rewrite no_underscore_app
        | rewrite digits_no_underscore by apply pad_digits
        | progress change ("-" +:+ ?x) with (String "-" x)
        | progress cbn [no_underscore Ascii.eqb Bool.eqb negb andb] ].
      reflexivity.
    + right. exists c, (s +:+ "-" +:+ pad 2 (decimal m) +:+ "-" +:+ pad 2 (decimal d)).
      rewrite Hs, !append_cons. auto.
  - split; [reflexivity|]. left. split; reflexivity.
Qed.

Lemma passKey_inj f1 f2 dp1 dp2 :
  offered f1 -> offered f2 ->
  dateParam f1 = Some dp1 -> dateParam f2 = Some dp2 ->
  passKey f1 dp1 = passKey f2 dp2 ->
  dp1 = dp2 /\ gender f1 = gender f2 /\ department f1 = department f2
  /\ attendanceStatus f1 = attendanceStatus f2
  /\ travelDistance f1 = travelDistance f2.
Proof.
  intros (Hg1 & Hd1 & Hs1 & Ht1) (Hg2 & Hd2 & Hs2 & Ht2) Hdp1 Hdp2 Hkey.
  assert (Hopt : forall l x, Forall (fun s => no_underscore s = true) l -> In x l ->
                             no_underscore x = true).
  { intros l x Hl Hx. rewrite Forall_forall in Hl. apply Hl.
    now apply list_elem_of_In. }
  assert (Hgs : Forall (fun s => no_underscore s = true) DashboardFilters.genderOptions)
    by (repeat constructor).
  assert (Hds : Forall (fun s => no_underscore s = true) DashboardFilters.departments)
    by (repeat constructor).
  assert (Hss : Forall (fun s => no_underscore s = true)
                  DashboardFilters.attendanceStatusOptions)
    by (repeat constructor).
  destruct (dateParam_part f1 dp1 Hdp1) as [Hn1 Hc1].
  destruct (dateParam_part f2 dp2 Hdp2) as [Hn2 Hc2].
  unfold passKey, attendanceCacheKey in Hkey.
  change ("attendanceRecords_" +:+ ?x) with
    (String "a" (String "t" (String "t" (String "e" (String "n" (String "d"
      (String "a" (String "n" (String "c" (String "e" (String "R" (String "e"
        (String "c" (String "o" (String "r" (String "d" (String "s"
          (String "_" x)))))))))))))))))) in Hkey.
  injection Hkey as Hkey.
  change ("_" +:+ ?x) with (String "_" x) in Hkey.
  apply no_underscore_split in Hkey as [Hdate Hkey]; [|assumption..].
  apply no_underscore_split in Hkey as [Hgender Hkey]; [|eauto..].
  apply no_underscore_split in Hkey as [Hdept Hkey]; [|eauto..].
  apply no_underscore_split in Hkey as [Hstatus Hkey]; [|eauto..].
  split; [|split; [assumption|split; [assumption|split; [assumption|]]]].
  - destruct Hc1 as [[-> E1]|(c1 & s1 & -> & E1 & D1)],
      Hc2 as [[-> E2]|(c2 & s2 & -> & E2 & D2)];
      cbn [string_or string_truthy] in Hdate; try reflexivity.
    + injection Hdate as <- _. discriminate D2.
    + injection Hdate as -> _. discriminate D1.
    + now rewrite Hdate.
  - revert Ht1 Ht2 Hkey. clear.
    generalize (travelDistance f1) (travelDistance f2). intros t1 t2 Ht1 Ht2 Hkey.
    cbn [In DashboardFilters.travelDistanceOptions] in Ht1, Ht2.
    repeat (destruct Ht1 as [<-|Ht1]); try contradiction;
      repeat (destruct Ht2 as [<-|Ht2]); try contradiction;
      first [reflexivity | vm_compute in Hkey; discriminate Hkey].
Qed.

End CacheKeys.

(** X17.  Different selections never share a records cache key: for two filter
    states whose fields are values the filter UI offers, with any valid
    date or none, a difference in the date parameter, the gender, the
    department, the attendance status or the distance bucket gives
    different keys.  So a run never reads the cached response of another
    selection. *)
Theorem offered_selections_have_distinct_keys (f1 f2 : FilterState)
    (dp1 dp2 : option string) :
  offered f1 -> offered f2 ->
  dateParam f1 = Some dp1 -> dateParam f2 = Some dp2 ->
  dp1 <> dp2 \/ gender f1 <> gender f2 \/ department f1 <> department f2
  \/ attendanceStatus f1 <> attendanceStatus f2
  \/ travelDistance f1 <> travelDistance f2 ->
  passKey f1 dp1 <> passKey f2 dp2.
Proof.
  intros H1 H2 Hdp1 Hdp2 Hdiff Hkey.
  destruct (passKey_inj f1 f2 dp1 dp2 H1 H2 Hdp1 Hdp2 Hkey) as (? & ? & ? & ? & ?).
  tauto.
Qed.

(** The selections Male / Sales / Late / 0-5 and Male / Sales / Late / all
    on 1 March 2024: both are offered, the buckets differ, and so do the
    keys. *)
Lemma offered_selections_0_5_and_all :
  let f1 := mkFilters "Male" "Sales" "0-5" "Late" (Some (Day 2024 3 1)) in
  let f2 := mkFilters "Male" "Sales" "all" "Late" (Some (Day 2024 3 1)) in
  (offered f1 /\ offered f2)
  /\ passKey f1 (Some "2024-03-01") <> passKey f2 (Some "2024-03-01").
Proof.
  assert (H1 : offered (mkFilters "Male" "Sales" "0-5" "Late" (Some (Day 2024 3 1))))
    by (unfold offered; cbn; tauto).
  assert (H2 : offered (mkFilters "Male" "Sales" "all" "Late" (Some (Day 2024 3 1))))
    by (unfold offered; cbn; tauto).
  split; [now split|].
  apply (offered_selections_have_distinct_keys
           (mkFilters "Male" "Sales" "0-5" "Late" (Some (Day 2024 3 1)))
           (mkFilters "Male" "Sales" "all" "Late" (Some (Day 2024 3 1)))
           (Some "2024-03-01") (Some "2024-03-01") H1 H2 eq_refl eq_refl).
  right. right. right. right. discriminate.
Defined.
